(** * update.py: the portfolio data fetcher

    A shallow embedding of [update.py] and the properties of its
    post normalizer, its three fetchers, its document assembler and its
    driver.

    Python values are embedded as a JSON tree with Python's dynamic
    behaviour written out (an operation on a value of the wrong type raises
    the exception the interpreter raises).  Effects (process environment,
    the three files, the wall clock, the network) are threaded through a
    state-and-exception monad over an explicit [world]. *)

From Stdlib Require Import ZArith NArith List String Ascii Lia Bool.
From Stdlib Require Import Floats.SpecFloat.
From stdpp Require Import base option list gmap.

Local Open Scope Z_scope.

(** ** Python strings

    A [str] is a sequence of Unicode code points. *)

Abbreviation pystr := (list N).

Definition py (s : string) : pystr := map N_of_ascii (list_ascii_of_string s).

(** [str.isspace] on one character, the table of CPython's
    [_PyUnicode_IsWhitespace]. *)
Definition isspace (c : N) : bool :=
  ((9 <=? c) && (c <=? 13) || (28 <=? c) && (c <=? 32)
   || (c =? 133) || (c =? 160) || (c =? 5760)
   || (8192 <=? c) && (c <=? 8202)
   || (c =? 8232) || (c =? 8233) || (c =? 8239) || (c =? 8287)
   || (c =? 12288))%N.

(** [s.split()]: [cur] is the word being read, kept reversed. *)
Fixpoint split_aux (cur : pystr) (s : pystr) : list pystr :=
  match s with
  | [] => match cur with [] => [] | _ => [rev cur] end
  | c :: s' =>
      if isspace c
      then match cur with
           | [] => split_aux [] s'
           | _ => rev cur :: split_aux [] s'
           end
      else split_aux (c :: cur) s'
  end.

Definition split (s : pystr) : list pystr := split_aux [] s.

(** [sep.join(words)] *)
Fixpoint join (sep : pystr) (words : list pystr) : pystr :=
  match words with
  | [] => []
  | [w] => w
  | w :: ws => w ++ sep ++ join sep ws
  end.

(** [s.split('\n')[0]]: the text before the first line feed. *)
Fixpoint first_line (s : pystr) : pystr :=
  match s with
  | [] => []
  | c :: s' => if (c =? 10)%N then [] else c :: first_line s'
  end.

Fixpoint is_prefix (p s : pystr) : bool :=
  match p, s with
  | [], _ => true
  | _ :: _, [] => false
  | a :: p', b :: s' => (a =? b)%N && is_prefix p' s'
  end.

(** [p in s] for two strings: substring test. *)
Fixpoint is_infix (p s : pystr) : bool :=
  is_prefix p s || match s with [] => false | _ :: s' => is_infix p s' end.

(** ** Python values (the JSON fragment) *)

#[warnings="-register-all"]
Inductive json : Type :=
| JNull
| JBool (b : bool)
| JInt (n : Z)
| JFloat (x : spec_float)
| JStr (s : pystr)
| JList (l : list json)
| JDict (d : list (pystr * json)).

(** A [dict] keeps its items in insertion order; keys are distinct, and a
    lookup returns the binding of the key. *)
Fixpoint dict_lookup (k : pystr) (d : list (pystr * json)) : option json :=
  match d with
  | [] => None
  | (k', v) :: d' => if bool_decide (k' = k) then Some v else dict_lookup k d'
  end.

Definition dict_keys (d : list (pystr * json)) : list pystr := map fst d.

(** [bool(v)] *)
Definition truthy (v : json) : bool :=
  match v with
  | JNull => false
  | JBool b => b
  | JInt n => negb (n =? 0)
  | JFloat (S754_zero _) => false
  | JFloat _ => true
  | JStr [] => false
  | JStr _ => true
  | JList [] => false
  | JList _ => true
  | JDict [] => false
  | JDict _ => true
  end.

(** ** Exceptions *)

Inductive exn : Type :=
| FileNotFoundError
| ValueError
| RequestException
| AttributeError
| TypeError
| KeyError
| IndexError
| OverflowError.

Inductive result (A : Type) : Type :=
| Ok (a : A)
| Raise (e : exn).
Arguments Ok {A} a.
Arguments Raise {A} e.

(** [v.get(k, d)]: only a [dict] has the method. *)
Definition py_get (v : json) (k : pystr) (d : json) : result json :=
  match v with
  | JDict kv => Ok (default d (dict_lookup k kv))
  | _ => Raise AttributeError
  end.

Definition str_eqb (k : pystr) (v : json) : bool :=
  match v with
  | JStr s => bool_decide (s = k)
  | _ => false
  end.

(** [k in v] for a string [k]: key test on a dict, membership on a list,
    substring test on a string, [TypeError] on anything else. *)
Definition py_in (k : pystr) (v : json) : result bool :=
  match v with
  | JDict kv => Ok (bool_decide (is_Some (dict_lookup k kv)))
  | JList l => Ok (existsb (str_eqb k) l)
  | JStr s => Ok (is_infix k s)
  | _ => Raise TypeError
  end.

(** [len(v)] *)
Definition py_len (v : json) : result nat :=
  match v with
  | JStr s => Ok (length s)
  | JList l => Ok (length l)
  | JDict kv => Ok (length kv)
  | _ => Raise TypeError
  end.

(** [for x in v]: the items the loop visits. *)
Definition py_iter (v : json) : result (list json) :=
  match v with
  | JList l => Ok l
  | JDict kv => Ok (map JStr (dict_keys kv))
  | JStr s => Ok (map (fun c => JStr [c]) s)
  | _ => Raise TypeError
  end.

(** [v[k]] for a string key [k]. *)
Definition py_getitem (v : json) (k : pystr) : result json :=
  match v with
  | JDict kv => match dict_lookup k kv with
                | Some x => Ok x
                | None => Raise KeyError
                end
  | _ => Raise TypeError
  end.

(** [v[0]] *)
Definition py_first (v : json) : result json :=
  match v with
  | JList (x :: _) => Ok x
  | JList [] => Raise IndexError
  | JStr (c :: _) => Ok (JStr [c])
  | JStr [] => Raise IndexError
  | JDict _ => Raise KeyError
  | _ => Raise TypeError
  end.

(** [v[:n]] *)
Definition py_slice_to (n : nat) (v : json) : result json :=
  match v with
  | JList l => Ok (JList (take n l))
  | JStr s => Ok (JStr (take n s))
  | _ => Raise TypeError
  end.

(** [v.split()] and [v.split('\n')[0]]: only a [str] has the method. *)
Definition py_split (v : json) : result (list pystr) :=
  match v with
  | JStr s => Ok (split s)
  | _ => Raise AttributeError
  end.

Definition py_first_line (v : json) : result json :=
  match v with
  | JStr s => Ok (JStr (first_line s))
  | _ => Raise AttributeError
  end.

(** ** Dates

    A naive [datetime], and [datetime.isoformat()]. *)

Record datetime : Type := mkDatetime {
  year : Z; month : Z; day : Z;
  hour : Z; minute : Z; second : Z; microsecond : Z }.

(** The [w] low decimal digits of [n], zero padded. *)
Fixpoint digits (w : nat) (n : Z) : pystr :=
  match w with
  | O => []
  | S w' => digits w' (n / 10) ++ [Z.to_N (48 + n mod 10)]
  end.

Definition isoformat (d : datetime) : pystr :=
  digits 4 (year d) ++ py "-" ++ digits 2 (month d) ++ py "-" ++
  digits 2 (day d) ++ py "T" ++ digits 2 (hour d) ++ py ":" ++
  digits 2 (minute d) ++ py ":" ++ digits 2 (second d) ++
  (if microsecond d =? 0 then [] else py "." ++ digits 6 (microsecond d)).

(** ** The world the script runs in *)

Record request : Type := mkRequest {
  url : pystr;
  headers : list (pystr * pystr);
  params : list (pystr * json) }.

(** What [requests.get] does with a request: it raises (connection error,
    timeout), or it returns a response with a status code and a body, which
    is [None] when the body is not JSON.  The [network] of a world gives
    that outcome for each request.  The settings that the requests library
    takes from the process environment on its own (proxies, certificate
    bundle, netrc) are part of [network]: [environ] stands for the
    variables that the script reads. *)
Inductive http_outcome : Type :=
| ConnectionFailed
| Response (status_code : Z) (body : option json).

Record world : Type := mkWorld {
  environ : gmap pystr pystr;                 (* os.environ *)
  dotenv_file : option (gmap pystr pystr);    (* SCRIPT_DIR/.env, parsed *)
  data_file : option json;                    (* DATA_FILE *)
  raw_linkedin_file : option json;            (* RAW_LINKEDIN_FILE *)
  clock : nat -> datetime;                    (* successive datetime.now() *)
  ticks : nat;
  network : request -> http_outcome;
  sent : list request }.                      (* requests issued so far *)

Definition set_environ (e : gmap pystr pystr) (w : world) : world :=
  mkWorld e (dotenv_file w) (data_file w) (raw_linkedin_file w)
          (clock w) (ticks w) (network w) (sent w).
Definition set_data_file (v : json) (w : world) : world :=
  mkWorld (environ w) (dotenv_file w) (Some v) (raw_linkedin_file w)
          (clock w) (ticks w) (network w) (sent w).
Definition set_raw_linkedin_file (v : json) (w : world) : world :=
  mkWorld (environ w) (dotenv_file w) (data_file w) (Some v)
          (clock w) (ticks w) (network w) (sent w).
Definition tick (w : world) : world :=
  mkWorld (environ w) (dotenv_file w) (data_file w) (raw_linkedin_file w)
          (clock w) (S (ticks w)) (network w) (sent w).
Definition record_request (r : request) (w : world) : world :=
  mkWorld (environ w) (dotenv_file w) (data_file w) (raw_linkedin_file w)
          (clock w) (ticks w) (network w) (sent w ++ [r]).

(** ** The monad: state over [world], with exceptions

    The logger calls of the script are left out: the log file is not part
    of [world]. *)

Definition M (A : Type) : Type := world -> result A * world.

Definition ret {A} (a : A) : M A := fun w => (Ok a, w).
Definition raise {A} (e : exn) : M A := fun w => (Raise e, w).
Definition bind {A B} (m : M A) (k : A -> M B) : M B :=
  fun w => match m w with
           | (Ok a, w') => k a w'
           | (Raise e, w') => (Raise e, w')
           end.
Definition lift {A} (r : result A) : M A := fun w => (r, w).

Notation "'do' x <- m ;; k" := (bind m (fun x => k))
  (at level 10, x name, m at level 99, k at level 200, only parsing).

(** [try: m except <classes>: h] where [catches] tells the classes caught. *)
Definition try_except {A} (m : M A) (catches : exn -> bool) (h : exn -> M A) : M A :=
  fun w => match m w with
           | (Raise e, w') => if catches e then h e w' else (Raise e, w')
           | r => r
           end.

Definition is_request_exception (e : exn) : bool :=
  match e with RequestException => true | _ => false end.
Definition any_exception (e : exn) : bool := true.

(** [for x in xs: acc = body(acc, x)] *)
Fixpoint for_each {A B} (xs : list A) (acc : B) (body : B -> A -> M B) : M B :=
  match xs with
  | [] => ret acc
  | x :: xs' => do acc' <- body acc x ;; for_each xs' acc' body
  end.

(** [os.getenv(k)] and [os.getenv(k, d)] *)
Definition getenv (k : pystr) : M (option pystr) :=
  fun w => (Ok (environ w !! k), w).
Definition getenv_default (k d : pystr) : M pystr :=
  fun w => (Ok (default d (environ w !! k)), w).

(** [not v] for the [Optional[str]] that [os.getenv] returns. *)
Definition env_missing (v : option pystr) : bool :=
  match v with
  | None | Some [] => true
  | Some _ => false
  end.

Definition datetime_now : M datetime :=
  fun w => (Ok (clock w (ticks w)), tick w).

(** [requests.get(url, headers=, params=, timeout=30)] *)
Definition requests_get (r : request) : M (Z * option json) :=
  fun w => match network w r with
           | ConnectionFailed => (Raise RequestException, record_request r w)
           | Response st b => (Ok (st, b), record_request r w)
           end.

(** [response.raise_for_status()]: [HTTPError], a [RequestException], on a
    4xx or 5xx status. *)
Definition raise_for_status (resp : Z * option json) : M unit :=
  if (400 <=? fst resp) && (fst resp <? 600) then raise RequestException else ret tt.

Definition write_data_file (v : json) : M unit :=
  fun w => (Ok tt, set_data_file v w).
Definition write_raw_linkedin_file (v : json) : M unit :=
  fun w => (Ok tt, set_raw_linkedin_file v w).

(** Sequencing of pure steps that may raise. *)
Definition rbind {A B} (r : result A) (k : A -> result B) : result B :=
  match r with
  | Ok a => k a
  | Raise e => Raise e
  end.

Notation "'let!' x := r 'in' k" := (rbind r (fun x => k))
  (at level 10, x name, r at level 99, k at level 200, only parsing).

(** [[f(x) for x in xs]] *)
Fixpoint rmap {A B} (f : A -> result B) (xs : list A) : result (list B) :=
  match xs with
  | [] => Ok []
  | x :: xs' => let! y := f x in let! ys := rmap f xs' in Ok (y :: ys)
  end.

(** [str(n)] for an [int]. *)
Fixpoint decimal_pos (fuel : nat) (n : Z) : pystr :=
  match fuel with
  | O => []
  | S fuel' =>
      (if n <? 10 then [] else decimal_pos fuel' (n / 10))
        ++ [Z.to_N (48 + n mod 10)]
  end.

Definition decimal (n : Z) : pystr :=
  if n <? 0
  then py "-" ++ decimal_pos (S (Z.to_nat (Z.log2 (- n)))) (- n)
  else decimal_pos (S (Z.to_nat (Z.log2 n))) n.

(** ** The script *)

Definition DAYS_BACK : Z := 3.

Definition empty_dict : json := JDict [].
Definition empty_str : json := JStr [].

Section Script.

(** What the host's Python runtime and libraries decide:
    - [fromtimestamp v] is [datetime.fromtimestamp(v / 1000)] for a
      truthy value [v]: float division, then conversion to local time
      ([TypeError] unless [v] is a number, [OverflowError] and the
      like out of range);
    - [repr_other v] is the text an f-string inserts for a float, a list
      or a dict [v] (float printing, quoting and escaping of nested
      strings);
    - [timestamp_ms_before days d] is
      [int((d - timedelta(days=days)).timestamp() * 1000)];
    - [json_error] is what [response.json()] raises on a body that is not
      JSON (a [RequestException] since requests 2.27, a [ValueError]
      before). *)
Variable fromtimestamp : json -> result datetime.
Variable repr_other : json -> pystr.
Variable timestamp_ms_before : Z -> datetime -> Z.
Variable json_error : exn.

(** [f"{v}"], that is [format(v, "")]. *)
Definition str (v : json) : pystr :=
  match v with
  | JStr s => s
  | JNull => py "None"
  | JBool true => py "True"
  | JBool false => py "False"
  | JInt n => decimal n
  | _ => repr_other v
  end.

Definition response_json (resp : Z * option json) : M json :=
  match snd resp with
  | Some v => ret v
  | None => raise json_error
  end.

(** *** load_env *)

Definition load_env : M unit :=
  fun w => match dotenv_file w with
           | None => (Raise FileNotFoundError, w)
           | Some vars => (Ok tt, set_environ (environ w ∪ vars) w)
           end.

(** *** fetch_linkedin_data *)

Definition linkedin_headers (token : pystr) : list (pystr * pystr) :=
  [ (py "Authorization", py "Bearer " ++ token);
    (py "X-Restli-Protocol-Version", py "2.0.0");
    (py "Linkedin-Version", py "202312") ].

(** The request of line 75. *)
Definition ugc_posts_request (token : pystr) : request :=
  mkRequest (py "https://api.linkedin.com/v2/ugcPosts")
            (linkedin_headers token)
            [ (py "q", JStr (py "authors"));
              (py "count", JInt 10);
              (py "sortBy", JStr (py "LAST_MODIFIED")) ].

(** The request of line 89. *)
Definition change_logs_request (token : pystr) (start_time_ms : Z) : request :=
  mkRequest (py "https://api.linkedin.com/rest/memberChangeLogs")
            (linkedin_headers token)
            [ (py "q", JStr (py "memberAndApplication"));
              (py "startTime", JInt start_time_ms);
              (py "count", JInt 50) ].

Definition fetch_linkedin_data : M json :=
  do token <- getenv (py "linkedin_access_token");;
  if env_missing token then raise ValueError else
  let token := default [] token in
  try_except
    (do response <- requests_get (ugc_posts_request token);;
     do response <-
       (if negb (fst response =? 200) then
          do now <- datetime_now;;
          let start_time_ms := timestamp_ms_before DAYS_BACK now in
          requests_get (change_logs_request token start_time_ms)
        else ret response);;
     do _ <- raise_for_status response;;
     do data <- response_json response;;
     do _ <- write_raw_linkedin_file data;;
     do elements <- lift (py_get data (py "elements") (JList []));;
     do _ <- lift (py_len elements);;
     ret data)
    is_request_exception
    (fun _ => ret (JDict [(py "elements", JList [])])).

(** *** parse_linkedin_posts *)

(** Lines 127-131: the text of a ugcPost. *)
Definition ugc_content (element : json) : result json :=
  let! has := py_in (py "specificContent") element in
  if has then
    let! specific := py_get element (py "specificContent") empty_dict in
    let! linkedin_share :=
      py_get specific (py "com.linkedin.ugc.ShareContent") empty_dict in
    let! share_commentary :=
      py_get linkedin_share (py "shareCommentary") empty_dict in
    py_get share_commentary (py "text") empty_str
  else Ok empty_str.

(** Lines 157-162: the text of a change-log element. *)
Definition changelog_content (element : json) : result json :=
  let! has_commentary := py_in (py "commentary") element in
  if has_commentary then
    let! commentary := py_get element (py "commentary") empty_dict in
    py_get commentary (py "text") empty_str
  else
    let! has_text := py_in (py "text") element in
    if has_text then py_get element (py "text") empty_str
    else Ok empty_str.

(** Lines 134-135 and 164-165: the date of an element. *)
Definition element_date (element : json) : M pystr :=
  do created <- lift (py_get element (py "created") empty_dict);;
  do created_time <- lift (py_get created (py "time") (JInt 0));;
  if truthy created_time then
    do d <- lift (fromtimestamp created_time);;
    ret (isoformat d)
  else
    do now <- datetime_now;;
    ret (isoformat now).

(** Lines 123-152: the ugcPosts structure. *)
Definition parse_ugc_post (element : json) : M (option json) :=
  do ugc_post_id <- lift (py_get element (py "id") empty_str);;
  do content <- lift (ugc_content element);;
  do date <- element_date element;;
  let post_url :=
    if truthy ugc_post_id
    then py "https://www.linkedin.com/feed/update/urn:li:ugcPost:"
           ++ str ugc_post_id ++ py "/"
    else [] in
  if truthy content
  then ret (Some (JDict [ (py "date", JStr date);
                          (py "content", content);
                          (py "url", JStr post_url);
                          (py "entity_urn",
                           JStr (py "urn:li:ugcPost:" ++ str ugc_post_id)) ]))
  else ret None.

(** Lines 155-176: the memberChangeLogs structure (fallback). *)
Definition parse_changelog (element : json) : M (option json) :=
  do entity_urn <- lift (py_get element (py "entityUrn") empty_str);;
  do content <- lift (changelog_content element);;
  do date <- element_date element;;
  let post_url :=
    if truthy entity_urn
    then py "https://www.linkedin.com/feed/update/" ++ str entity_urn ++ py "/"
    else [] in
  if truthy content || truthy entity_urn
  then ret (Some (JDict [ (py "date", JStr date);
                          (py "content", content);
                          (py "url", JStr post_url);
                          (py "entity_urn", entity_urn) ]))
  else ret None.

(** The body of the loop of lines 120-176. *)
Definition parse_element (element : json) : M (option json) :=
  do is_ugc <- lift (py_in (py "specificContent") element);;
  if is_ugc then parse_ugc_post element else parse_changelog element.

Definition append_post (posts : list json) (element : json) : M (list json) :=
  do post <- parse_element element;;
  ret (posts ++ option_list post).

Definition parse_linkedin_posts (linkedin_data : json) : M (list json) :=
  do elements <- lift (py_get linkedin_data (py "elements") (JList []));;
  if negb (truthy elements) then ret [] else
  do elements <- lift (py_iter elements);;
  do posts <- for_each elements [] append_post;;
  ret (take 5 posts).

(** *** fetch_github_activity *)

Definition commit_summary (commit : json) : result json :=
  let! sha := py_get commit (py "sha") empty_str in
  let! sha := py_slice_to 7 sha in
  let! detail := py_get commit (py "commit") empty_dict in
  let! message := py_get detail (py "message") empty_str in
  let! message := py_first_line message in
  Ok (JDict [ (py "sha", sha); (py "message", message) ]).

Definition fetch_github_activity : M json :=
  do token <- getenv (py "github_pat");;
  do username <- getenv (py "PORTFOLIO_GITHUB");;
  if env_missing username then ret JNull else
  let username := default [] username in
  let url := py "https://api.github.com/users/" ++ username ++ py "/repos" in
  let params :=
    [ (py "sort", JStr (py "pushed"));
      (py "direction", JStr (py "desc"));
      (py "per_page", JInt 5) ] in
  let headers :=
    [ (py "Accept", py "application/vnd.github+json");
      (py "X-GitHub-Api-Version", py "2022-11-28") ] in
  try_except
    (do response <- requests_get (mkRequest url headers params);;
     do _ <- raise_for_status response;;
     do repos <- response_json response;;
     do some <- (if truthy repos
                 then do n <- lift (py_len repos);; ret (0 <? n)%nat
                 else ret false);;
     if (some : bool) then
       do latest_repo <- lift (py_first repos);;
       do repo_full_name <- lift (py_get latest_repo (py "full_name") empty_str);;
       do repo_name <- lift (py_get latest_repo (py "name") empty_str);;
       do pushed_at <- lift (py_get latest_repo (py "pushed_at") empty_str);;
       let commits_url :=
         py "https://api.github.com/repos/" ++ str repo_full_name ++ py "/commits" in
       let commits_params := [ (py "per_page", JInt 3) ] in
       do latest_commits <-
         try_except
           (do commits_response <-
              requests_get (mkRequest commits_url headers commits_params);;
            do _ <- raise_for_status commits_response;;
            do commits_data <- response_json commits_response;;
            do first3 <- lift (py_slice_to 3 commits_data);;
            do commits <- lift (py_iter first3);;
            lift (rmap commit_summary commits))
           any_exception
           (fun _ => ret []);;
       ret (JDict [ (py "repo", repo_full_name);
                    (py "repo_name", repo_name);
                    (py "commits", JList latest_commits);
                    (py "pushed_at", pushed_at) ])
     else ret JNull)
    is_request_exception
    (fun _ => ret JNull).

(** *** fetch_youtube_uploads_playlist *)

(** The request of line 279. *)
Definition channels_request (channel_id api_key : pystr) : request :=
  mkRequest (py "https://www.googleapis.com/youtube/v3/channels") []
            [ (py "part", JStr (py "contentDetails"));
              (py "id", JStr channel_id);
              (py "key", JStr api_key) ].

Definition fetch_youtube_uploads_playlist : M json :=
  do api_key <- getenv (py "youtube_api_key");;
  do channel_id <- getenv (py "youtube_channel_ID");;
  if env_missing api_key || env_missing channel_id then ret JNull else
  let api_key := default [] api_key in
  let channel_id := default [] channel_id in
  try_except
    (do response <- requests_get (channels_request channel_id api_key);;
     do _ <- raise_for_status response;;
     do data <- response_json response;;
     do has_items <- lift (py_in (py "items") data);;
     do some <- (if (has_items : bool)
                 then do items <- lift (py_getitem data (py "items"));;
                      do n <- lift (py_len items);;
                      ret (0 <? n)%nat
                 else ret false);;
     if (some : bool) then
       do items <- lift (py_getitem data (py "items"));;
       do item <- lift (py_first items);;
       do details <- lift (py_getitem item (py "contentDetails"));;
       do related <- lift (py_getitem details (py "relatedPlaylists"));;
       lift (py_getitem related (py "uploads"))
     else ret JNull)
    is_request_exception
    (fun _ => ret JNull).

(** *** fetch_youtube_latest_videos *)

(** Lines 322-329: the summary of one playlist item. *)
Definition video_summary (item : json) : result json :=
  let! snippet := py_get item (py "snippet") empty_dict in
  let! resource := py_get snippet (py "resourceId") empty_dict in
  let! video_id := py_get resource (py "videoId") empty_str in
  let! title := py_get snippet (py "title") empty_str in
  let! published_at := py_get snippet (py "publishedAt") empty_str in
  let! thumbnails := py_get snippet (py "thumbnails") empty_dict in
  let! high := py_get thumbnails (py "high") empty_dict in
  let! thumbnail := py_get high (py "url") empty_str in
  Ok (JDict [ (py "title", title);
              (py "video_id", video_id);
              (py "published_at", published_at);
              (py "thumbnail", thumbnail) ]).

Definition append_video (videos : list json) (item : json) : M (list json) :=
  do video <- lift (video_summary item);;
  ret (videos ++ [video]).

(** The request of line 316. *)
Definition playlist_items_request (uploads_playlist_id : json) (max_results : Z)
    (api_key : option pystr) : request :=
  mkRequest (py "https://www.googleapis.com/youtube/v3/playlistItems") []
            [ (py "part", JStr (py "snippet"));
              (py "playlistId", uploads_playlist_id);
              (py "maxResults", JInt max_results);
              (py "key", match api_key with Some k => JStr k | None => JNull end) ].

Definition fetch_youtube_latest_videos (max_results : Z) : M (list json) :=
  do uploads_playlist_id <- fetch_youtube_uploads_playlist;;
  if negb (truthy uploads_playlist_id) then ret [] else
  do api_key <- getenv (py "youtube_api_key");;
  try_except
    (do response <-
       requests_get (playlist_items_request uploads_playlist_id max_results api_key);;
     do _ <- raise_for_status response;;
     do data <- response_json response;;
     do items <- lift (py_get data (py "items") (JList []));;
     do items <- lift (py_iter items);;
     for_each items [] append_video)
    is_request_exception
    (fun _ => ret []).

(** *** generate_data_json *)

(** Lines 342-353. *)
Definition latest_post_preview (posts : list json) : result json :=
  match posts with
  | [] => Ok JNull
  | first :: _ =>
      let! content := py_get first (py "content") empty_str in
      let! words := py_split content in
      let words := take 5 words in
      let preview :=
        join (py " ") words ++ (if (5 <=? length words)%nat then py "..." else []) in
      let! post_url := py_get first (py "url") empty_str in
      Ok (JDict [ (py "preview", JStr preview);
                  (py "url", post_url);
                  (py "full_content", content) ])
  end.

Definition generate_data_json (posts : list json) (github_activity : json)
    (youtube_videos : list json) : M unit :=
  do latest_linkedin_post <- lift (latest_post_preview posts);;
  do name <- getenv_default (py "PORTFOLIO_NAME") (py "Your Name");;
  do title <- getenv_default (py "PORTFOLIO_TITLE") (py "Your Title");;
  do email <- getenv_default (py "PORTFOLIO_EMAIL") (py "your.email@example.com");;
  do github <- getenv_default (py "PORTFOLIO_GITHUB") (py "yourusername");;
  do linkedin <-
    getenv_default (py "PORTFOLIO_LINKEDIN") (py "https://linkedin.com/in/yourprofile");;
  do now <- datetime_now;;
  let data :=
    JDict [ (py "name", JStr name);
            (py "title", JStr title);
            (py "linkedin_posts", JList posts);
            (py "latest_linkedin_post", latest_linkedin_post);
            (py "github_activity", github_activity);
            (py "youtube_videos", JList youtube_videos);
            (py "contact", JDict [ (py "email", JStr email);
                                   (py "github", JStr github);
                                   (py "linkedin", JStr linkedin) ]);
            (py "last_updated", JStr (isoformat now)) ] in
  write_data_file data.

(** *** main *)

Definition main : M unit :=
  try_except
    (do _ <- load_env;;
     do linkedin_data <- fetch_linkedin_data;;
     do posts <- parse_linkedin_posts linkedin_data;;
     do github_activity <- fetch_github_activity;;
     do youtube_videos <- fetch_youtube_latest_videos 5;;
     generate_data_json posts github_activity youtube_videos)
    any_exception
    (fun e => raise e).

End Script.

(** * The vocabulary of the properties *)

(** ** The output document *)

(** The record the normalizer emits, with the field types of the data
    model, and its Python value. *)
Record NormalizedPost : Type := mkPost {
  post_date : pystr;
  post_content : pystr;
  post_url : pystr;
  post_entity_urn : pystr }.

Definition post_json (p : NormalizedPost) : json :=
  JDict [ (py "date", JStr (post_date p));
          (py "content", JStr (post_content p));
          (py "url", JStr (post_url p));
          (py "entity_urn", JStr (post_entity_urn p)) ].

(** The top-level keys of the output document. *)
Definition OUTPUT_KEYS : list pystr :=
  [ py "name"; py "title"; py "linkedin_posts"; py "latest_linkedin_post";
    py "github_activity"; py "youtube_videos"; py "contact"; py "last_updated" ].

(** The preview text of lines 346-347. *)
Definition preview_of (content : pystr) : pystr :=
  join (py " ") (take 5 (split content))
    ++ (if (5 <=? length (take 5 (split content)))%nat then py "..." else []).

(** ** Whitespace-separated words

    [words_of s ws]: the string [s] is the words [ws], in order, each word
    non-empty and free of whitespace, separated by non-empty runs of
    whitespace, with optional whitespace before the first and after the
    last. *)

Definition all_space (s : pystr) : bool := forallb isspace s.

Definition no_space (s : pystr) : bool := forallb (fun c => negb (isspace c)) s.

Definition starts_with_space (s : pystr) : Prop :=
  match s with
  | [] => True
  | c :: _ => isspace c = true
  end.

Inductive words_of : pystr -> list pystr -> Prop :=
| words_none sp :
    all_space sp = true -> words_of sp []
| words_some sp w rest ws :
    all_space sp = true ->
    w <> [] -> no_space w = true ->
    starts_with_space rest ->
    words_of rest ws ->
    words_of (sp ++ w ++ rest) (w :: ws).

(** ** Frames *)

(** A computation that leaves the output document alone. *)
Definition keeps_data_file {A} (m : M A) : Prop :=
  forall w, data_file (snd (m w)) = data_file w.

(** The weaker guarantee: a run that raises has not written it. *)
Definition raises_before_writing {A} (m : M A) : Prop :=
  forall w e w', m w = (Raise e, w') -> data_file w' = data_file w.

(** A computation whose outcome does not depend on the world and which
    leaves it as it is. *)
Definition world_free {A} (m : M A) : Prop :=
  exists r, forall w, m w = (r, w).

(** ** Endpoints *)

(** An endpoint fails: no response at all, or a 4xx or 5xx response. *)
Definition failed (o : http_outcome) : bool :=
  match o with
  | ConnectionFailed => true
  | Response st _ => (400 <=? st) && (st <? 600)
  end.

(** The ugcPosts endpoint gives no 200 response, the condition under which
    the script turns to memberChangeLogs (or gives up, with no response). *)
Definition not_ok (o : http_outcome) : bool :=
  match o with
  | ConnectionFailed => true
  | Response st _ => negb (st =? 200)
  end.

(** The items the loop of line 321 visits. *)
Definition response_items (data : json) : result (list json) :=
  let! items := py_get data (py "items") (JList []) in
  py_iter items.

(** ** Elements of the raw payload *)

(** The entity identifier of a change-log element, as line 156 reads it. *)
Definition entity_urn_of (d : list (pystr * json)) : json :=
  default empty_str (dict_lookup (py "entityUrn") d).

(** The words of the specification for the text of a fallback-shape
    element: "commentary.text" if present, else "text" if present, else
    empty. *)
Definition spec_fallback_content (d : list (pystr * json)) : json :=
  let commentary_text :=
    match dict_lookup (py "commentary") d with
    | Some (JDict commentary) => dict_lookup (py "text") commentary
    | _ => None
    end in
  match commentary_text with
  | Some text => text
  | None => default empty_str (dict_lookup (py "text") d)
  end.

(** [element.get("created", {}).get("time", 0)] *)
Definition created_time (element : json) : result json :=
  let! created := py_get element (py "created") empty_dict in
  py_get created (py "time") (JInt 0).

(** The element reaches line 135 (or 165) with a falsy creation time
    (absent, zero, null, empty), and is dated with the clock. *)
Definition undated (element : json) : bool :=
  match created_time element with
  | Ok t => negb (truthy t)
  | Raise _ => false
  end.

(** The elements the loop of line 120 visits. *)
Definition payload_elements (linkedin_data : json) : list json :=
  match py_get linkedin_data (py "elements") (JList []) with
  | Ok elements =>
      if truthy elements
      then match py_iter elements with Ok l => l | Raise _ => [] end
      else []
  | Raise _ => []
  end.

(** ** Shapes of the values the script builds *)

(** A word: non-empty and free of whitespace. *)
Definition is_word (w : pystr) : Prop := w <> [] /\ no_space w = true.

(** The dict of lines 146-151 and 170-175. *)
Definition is_post_record (p : json) : Prop :=
  exists date content post_url entity_urn,
    p = JDict [ (py "date", JStr date);
                (py "content", content);
                (py "url", JStr post_url);
                (py "entity_urn", entity_urn) ].

(** The dict of lines 234-237. *)
Definition is_commit_record (c : json) : Prop :=
  exists sha message,
    c = JDict [ (py "sha", sha); (py "message", message) ].

(** The dict of lines 324-329. *)
Definition is_video_record (v : json) : Prop :=
  exists title video_id published_at thumbnail,
    v = JDict [ (py "title", title);
                (py "video_id", video_id);
                (py "published_at", published_at);
                (py "thumbnail", thumbnail) ].

(** ** Worlds that differ by clock readings or by requests only *)

(** The world after [k] more readings of the clock. *)
Definition after_ticks (k : nat) (w : world) : world := Nat.iter k tick w.

(** The world after the requests [reqs] have been sent. *)
Definition with_sent (reqs : list request) (w : world) : world :=
  mkWorld (environ w) (dotenv_file w) (data_file w) (raw_linkedin_file w)
          (clock w) (ticks w) (network w) (sent w ++ reqs).

(** [parse_element] returns [r] on [e] without touching the world. *)
Definition element_yields (fromtimestamp : json -> result datetime)
    (repr_other : json -> pystr) (e : json) (r : result (option json)) : Prop :=
  forall w, parse_element fromtimestamp repr_other e w = (r, w).

(** A computation that reads the clock at most [n] times and does nothing
    else to the world. *)
Definition ticks_at_most {A} (n : nat) (m : M A) : Prop :=
  forall w, exists k, (k <= n)%nat /\ snd (m w) = after_ticks k w.

(** ** Exceptions and requests of the fetchers *)

(** A computation out of which no [RequestException] comes. *)
Definition contains_request_exceptions {A} (m : M A) : Prop :=
  forall w e w', m w = (Raise e, w') -> is_request_exception e = false.

(** A computation that sends at most [n] requests. *)
Definition sends_at_most {A} (n : nat) (m : M A) : Prop :=
  forall w, exists reqs,
    (length reqs <= n)%nat /\ sent (snd (m w)) = sent w ++ reqs.

(** The response that [fetch_linkedin_data] ends up with: the one of
    ugcPosts when its status is 200, the one of memberChangeLogs
    otherwise. *)
Definition linkedin_answer (timestamp_ms_before : Z -> datetime -> Z)
    (token : pystr) (w : world) : http_outcome :=
  match network w (ugc_posts_request token) with
  | ConnectionFailed => ConnectionFailed
  | Response st b =>
      if st =? 200 then Response st b
      else network w (change_logs_request token
                        (timestamp_ms_before DAYS_BACK (clock w (ticks w))))
  end.

(** The requests that [fetch_linkedin_data] sends. *)
Definition linkedin_requests (timestamp_ms_before : Z -> datetime -> Z)
    (token : pystr) (w : world) : list request :=
  ugc_posts_request token ::
  match network w (ugc_posts_request token) with
  | ConnectionFailed => []
  | Response st _ =>
      if st =? 200 then []
      else [change_logs_request token
              (timestamp_ms_before DAYS_BACK (clock w (ticks w)))]
  end.

(** The requests of lines 211 and 229. *)
Definition github_repos_request (username : pystr) : request :=
  mkRequest (py "https://api.github.com/users/" ++ username ++ py "/repos")
            [ (py "Accept", py "application/vnd.github+json");
              (py "X-GitHub-Api-Version", py "2022-11-28") ]
            [ (py "sort", JStr (py "pushed"));
              (py "direction", JStr (py "desc"));
              (py "per_page", JInt 5) ].

Definition github_commits_request (repr_other : json -> pystr)
    (repo_full_name : json) : request :=
  mkRequest (py "https://api.github.com/repos/" ++ str repr_other repo_full_name
               ++ py "/commits")
            [ (py "Accept", py "application/vnd.github+json");
              (py "X-GitHub-Api-Version", py "2022-11-28") ]
            [ (py "per_page", JInt 3) ].

(** A computation that reads none of the variables of [environ]: run with
    another [environ], it gives the same outcome and does the same to the
    rest of the world. *)
Definition env_blind {A} (m : M A) : Prop :=
  forall e w, m (set_environ e w) = (fst (m w), set_environ e (snd (m w))).

(** The [try] statement of lines 210-255, for the account [username]. *)
Definition github_try_block (repr_other : json -> pystr) (json_error : exn)
    (username : pystr) : M json :=
  try_except
    (do response <- requests_get (github_repos_request username);;
     do _ <- raise_for_status response;;
     do repos <- response_json json_error response;;
     do some <- (if truthy repos
                 then do n <- lift (py_len repos);; ret (0 <? n)%nat
                 else ret false);;
     if (some : bool) then
       do latest_repo <- lift (py_first repos);;
       do repo_full_name <- lift (py_get latest_repo (py "full_name") empty_str);;
       do repo_name <- lift (py_get latest_repo (py "name") empty_str);;
       do pushed_at <- lift (py_get latest_repo (py "pushed_at") empty_str);;
       do latest_commits <-
         try_except
           (do commits_response <-
              requests_get (github_commits_request repr_other repo_full_name);;
            do _ <- raise_for_status commits_response;;
            do commits_data <- response_json json_error commits_response;;
            do first3 <- lift (py_slice_to 3 commits_data);;
            do commits <- lift (py_iter first3);;
            lift (rmap commit_summary commits))
           any_exception
           (fun _ => ret []);;
       ret (JDict [ (py "repo", repo_full_name);
                    (py "repo_name", repo_name);
                    (py "commits", JList latest_commits);
                    (py "pushed_at", pushed_at) ])
     else ret JNull)
    is_request_exception
    (fun _ => ret JNull).

(** The [try] statement of lines 278-293, for a channel and a key. *)
Definition uploads_try_block (json_error : exn) (channel_id api_key : pystr) : M json :=
  try_except
    (do response <- requests_get (channels_request channel_id api_key);;
     do _ <- raise_for_status response;;
     do data <- response_json json_error response;;
     do has_items <- lift (py_in (py "items") data);;
     do some <- (if (has_items : bool)
                 then do items <- lift (py_getitem data (py "items"));;
                      do n <- lift (py_len items);;
                      ret (0 <? n)%nat
                 else ret false);;
     if (some : bool) then
       do items <- lift (py_getitem data (py "items"));;
       do item <- lift (py_first items);;
       do details <- lift (py_getitem item (py "contentDetails"));;
       do related <- lift (py_getitem details (py "relatedPlaylists"));;
       lift (py_getitem related (py "uploads"))
     else ret JNull)
    is_request_exception
    (fun _ => ret JNull).

(** The nested lookup of line 284 on the first item of the answer. *)
Definition uploads_of (item : json) : result json :=
  let! details := py_getitem item (py "contentDetails") in
  let! related := py_getitem details (py "relatedPlaylists") in
  py_getitem related (py "uploads").

(** [os.getenv(k, d)] as a JSON string. *)
Definition profile_field (w : world) (k d : string) : json :=
  JStr (default (py d) (environ w !! py k)).

(** ** The six endpoints *)

Inductive endpoint : Type :=
| UgcPosts
| MemberChangeLogs
| GithubRepos
| GithubCommits
| YoutubeChannels
| YoutubePlaylistItems.

(** [s.startswith(prefix)] *)
Fixpoint starts_with (prefix s : pystr) : bool :=
  match prefix, s with
  | [], _ => true
  | _ :: _, [] => false
  | c :: prefix', c' :: s' => (c =? c')%N && starts_with prefix' s'
  end.

(** The endpoint a request goes to, by its URL. *)
Definition endpoint_of (r : request) : option endpoint :=
  if starts_with (py "https://api.linkedin.com/v2/ugcPosts") (url r)
  then Some UgcPosts
  else if starts_with (py "https://api.linkedin.com/rest/memberChangeLogs") (url r)
  then Some MemberChangeLogs
  else if starts_with (py "https://api.github.com/users/") (url r)
  then Some GithubRepos
  else if starts_with (py "https://api.github.com/repos/") (url r)
  then Some GithubCommits
  else if starts_with (py "https://www.googleapis.com/youtube/v3/channels") (url r)
  then Some YoutubeChannels
  else if starts_with (py "https://www.googleapis.com/youtube/v3/playlistItems") (url r)
  then Some YoutubePlaylistItems
  else None.

(** The endpoints, two per source, in the order in which a run gets to
    them. *)
Definition ENDPOINTS : list endpoint :=
  [ UgcPosts; MemberChangeLogs; GithubRepos; GithubCommits;
    YoutubeChannels; YoutubePlaylistItems ].

(** A computation whose requests go to endpoints of [eps], in the order of
    [eps] and at most one to each. *)
Definition sends_to {A} (eps : list endpoint) (m : M A) : Prop :=
  forall w, exists reqs es,
    sent (snd (m w)) = sent w ++ reqs
    /\ Forall2 (fun r e => endpoint_of r = Some e) reqs es
    /\ sublist es eps.

(** * A host and concrete inputs

    The properties below hold for every host.  To run the script on
    concrete inputs we fix one whose local time is UTC.
    [host_fromtimestamp] converts integer millisecond stamps exactly
    ([True] is 1); a float stamp is outside what this host covers and
    raises.  [host_repr_other] is a placeholder: the inputs below never put
    a float, a list or a dict in an f-string. *)

(** Days since 1970-01-01 to a civil date, and back. *)
Definition civil_from_days (z : Z) : Z * Z * Z :=
  let z := z + 719468 in
  let era := z / 146097 in
  let doe := z - era * 146097 in
  let yoe := (doe - doe / 1460 + doe / 36524 - doe / 146096) / 365 in
  let doy := doe - (365 * yoe + yoe / 4 - yoe / 100) in
  let mp := (5 * doy + 2) / 153 in
  let d := doy - (153 * mp + 2) / 5 + 1 in
  let m := if mp <? 10 then mp + 3 else mp - 9 in
  let y := yoe + era * 400 + (if m <=? 2 then 1 else 0) in
  (y, m, d).

Definition days_from_civil (y m d : Z) : Z :=
  let y := if m <=? 2 then y - 1 else y in
  let era := y / 400 in
  let yoe := y - era * 400 in
  let doy := (153 * (if 2 <? m then m - 3 else m + 9) + 2) / 5 + d - 1 in
  let doe := yoe * 365 + yoe / 4 - yoe / 100 + doy in
  era * 146097 + doe - 719468.

Definition utc_of_ms (ms : Z) : datetime :=
  let '(y, m, d) := civil_from_days (ms / 86400000) in
  let r := ms mod 86400000 in
  mkDatetime y m d (r / 3600000) (r / 60000 mod 60) (r / 1000 mod 60)
             (r mod 1000 * 1000).

Definition host_fromtimestamp (v : json) : result datetime :=
  match v with
  | JInt ms =>
      if (-62135596800000 <=? ms) && (ms <? 253402300800000)
      then Ok (utc_of_ms ms) else Raise ValueError
  | JBool b => Ok (utc_of_ms (if b then 1 else 0))
  | JFloat _ => Raise OverflowError
  | _ => Raise TypeError
  end.

Definition host_timestamp_ms_before (days : Z) (d : datetime) : Z :=
  (days_from_civil (year d) (month d) (day d) - days) * 86400000
  + hour d * 3600000 + minute d * 60000 + second d * 1000
  + microsecond d / 1000.

Definition host_repr_other (v : json) : pystr := py "<object>".

Definition host_json_error : exn := RequestException.

Definition host_main : M unit :=
  main host_fromtimestamp host_repr_other host_timestamp_ms_before host_json_error.

(** A clock that starts on 2024-05-01T09:00:00 and advances one second per
    reading. *)
Definition a_clock (n : nat) : datetime :=
  utc_of_ms (1714554000000 + Z.of_nat n * 1000).

(** A network that answers by URL, and fails to connect to any other. *)
Fixpoint serve (routes : list (pystr * http_outcome)) (r : request) : http_outcome :=
  match routes with
  | [] => ConnectionFailed
  | (u, o) :: routes' => if bool_decide (url r = u) then o else serve routes' r
  end.

(** A first run: an .env file with no variable in it, no output document
    and no raw debug file yet. *)
Definition a_world (env : list (pystr * pystr)) (routes : list (pystr * http_outcome)) : world :=
  mkWorld (list_to_map env) (Some ∅) None None a_clock 0 (serve routes) [].

(** A world that a previous run has left its two files in. *)
Definition old_document : json := JDict [ (py "name", JStr (py "Old Name")) ].

Definition old_raw : json := JDict [ (py "elements", JList []) ].

Definition after_a_run (w : world) : world :=
  mkWorld (environ w) (dotenv_file w) (Some old_document) (Some old_raw)
          (clock w) (ticks w) (network w) (sent w).

(** Nothing configured, nothing reachable. *)
Definition offline_world : world := after_a_run (a_world [] []).

(** No .env file next to the script. *)
Definition no_dotenv_world : world :=
  mkWorld ∅ None (Some old_document) (Some old_raw) a_clock 0 (serve []) [].

Definition ugc_url : pystr := py "https://api.linkedin.com/v2/ugcPosts".

Definition channels_url : pystr := py "https://www.googleapis.com/youtube/v3/channels".

Definition playlist_items_url : pystr :=
  py "https://www.googleapis.com/youtube/v3/playlistItems".

(** ugcPosts answers 403 and memberChangeLogs cannot be reached. *)
Definition failing_linkedin_world : world :=
  after_a_run (a_world [ (py "linkedin_access_token", py "secret") ]
                       [ (ugc_url, Response 403 None) ]).

(** One ugcPost, with its creation time. *)
Definition scenario_1_payload : json :=
  JDict [ (py "elements", JList [
    JDict [ (py "id", JStr (py "urn:li:share:7"));
            (py "specificContent", JDict [
               (py "com.linkedin.ugc.ShareContent", JDict [
                  (py "shareCommentary", JDict [
                     (py "text", JStr (py "Hello world this is a long post")) ]) ]) ]);
            (py "created", JDict [ (py "time", JInt 1700000000000) ]) ] ]) ].

Definition scenario_1_world : world :=
  a_world [ (py "linkedin_access_token", py "secret") ]
          [ (ugc_url, Response 200 (Some scenario_1_payload)) ].

(** One change-log element with a text and no creation time, and the
    record it becomes when normalized at [date]. *)
Definition undated_payload : json :=
  JDict [ (py "elements", JList [ JDict [ (py "text", JStr (py "hi")) ] ]) ].

Definition hi_post (date : string) : json :=
  JDict [ (py "date", JStr (py date));
          (py "content", JStr (py "hi"));
          (py "url", JStr []);
          (py "entity_urn", JStr []) ].

(** A change-log element with an empty commentary object and a top-level
    text. *)
Definition empty_commentary_element : list (pystr * json) :=
  [ (py "entityUrn", JStr (py "urn:li:activity:1"));
    (py "commentary", JDict []);
    (py "text", JStr (py "hello")) ].

(** A change-log element with a commentary text and a top-level text. *)
Definition commentary_element : list (pystr * json) :=
  [ (py "entityUrn", JStr (py "urn:li:activity:2"));
    (py "commentary", JDict [ (py "text", JStr (py "from commentary")) ]);
    (py "text", JStr (py "from text")) ].

(** An element with both a "specificContent" and a "commentary" key. *)
Definition both_keys_element : list (pystr * json) :=
  [ (py "id", JStr (py "urn:li:share:7"));
    (py "specificContent", JDict [
       (py "com.linkedin.ugc.ShareContent", JDict [
          (py "shareCommentary", JDict [
             (py "text", JStr (py "from shareCommentary")) ]) ]) ]);
    (py "commentary", JDict [ (py "text", JStr (py "from commentary")) ]);
    (py "created", JDict [ (py "time", JInt 1700000000000) ]) ].

(** A change-log element with an identifier and no text: the change-log
    rule keeps it, the ugcPosts rule would have dropped an element with no
    text. *)
Definition urn_only_element : list (pystr * json) :=
  [ (py "entityUrn", JStr (py "urn:li:activity:3")) ].

(** The answer of the channels endpoint, and the [n]-th item of a
    playlistItems answer with the record it becomes. *)
Definition channels_answer : json :=
  JDict [ (py "items", JList [
    JDict [ (py "contentDetails", JDict [
      (py "relatedPlaylists", JDict [
        (py "uploads", JStr (py "UU123")) ]) ]) ] ]) ].

Definition video_item (n : Z) : json :=
  JDict [ (py "snippet", JDict [
    (py "title", JStr (py "video " ++ decimal n));
    (py "resourceId", JDict [ (py "videoId", JStr (py "id" ++ decimal n)) ]);
    (py "publishedAt", JStr (py "2024-04-0" ++ decimal n ++ py "T12:00:00Z")) ]) ].

Definition video_record (n : Z) : json :=
  JDict [ (py "title", JStr (py "video " ++ decimal n));
          (py "video_id", JStr (py "id" ++ decimal n));
          (py "published_at", JStr (py "2024-04-0" ++ decimal n ++ py "T12:00:00Z"));
          (py "thumbnail", JStr []) ].

Definition six_items : list json := map video_item [1; 2; 3; 4; 5; 6].

Definition six_videos : list json := map video_record [1; 2; 3; 4; 5; 6].

(** The playlistItems endpoint answers with six items. *)
Definition six_items_world : world :=
  a_world [ (py "youtube_api_key", py "key");
            (py "youtube_channel_ID", py "UC123") ]
          [ (channels_url, Response 200 (Some channels_answer));
            (playlist_items_url,
             Response 200 (Some (JDict [ (py "items", JList six_items) ]))) ].

(** The playlistItems endpoint answers with two items. *)
Definition two_items_world : world :=
  a_world [ (py "youtube_api_key", py "key");
            (py "youtube_channel_ID", py "UC123") ]
          [ (channels_url, Response 200 (Some channels_answer));
            (playlist_items_url,
             Response 200 (Some (JDict [ (py "items",
                                          JList (map video_item [1; 2])) ]))) ].

(** The [n]-th change-log element of a dated payload, and the record it
    becomes. *)
Definition dated_element (n : Z) : json :=
  JDict [ (py "entityUrn", JStr (py "urn:li:activity:" ++ decimal n));
          (py "text", JStr (py "post " ++ decimal n));
          (py "created", JDict [ (py "time", JInt (1700000000000 + n * 1000)) ]) ].

Definition dated_record (n : Z) : json :=
  JDict [ (py "date", JStr (py "2023-11-14T22:13:2" ++ decimal n));
          (py "content", JStr (py "post " ++ decimal n));
          (py "url", JStr (py "https://www.linkedin.com/feed/update/urn:li:activity:"
                             ++ decimal n ++ py "/"));
          (py "entity_urn", JStr (py "urn:li:activity:" ++ decimal n)) ].

(** A dated element with neither text nor identifier: no record. *)
Definition silent_element : json :=
  JDict [ (py "created", JDict [ (py "time", JInt 1700000000000) ]) ].

(** Seven elements, the second of which is silent. *)
Definition seven_elements : list json :=
  [ dated_element 1; silent_element; dated_element 2; dated_element 3;
    dated_element 4; dated_element 5; dated_element 6 ].

Definition seven_outcomes : list (option json) :=
  [ Some (dated_record 1); None; Some (dated_record 2); Some (dated_record 3);
    Some (dated_record 4); Some (dated_record 5); Some (dated_record 6) ].

(** ugcPosts answers 403, memberChangeLogs answers with two elements that
    carry a text. *)
Definition change_logs_url : pystr :=
  py "https://api.linkedin.com/rest/memberChangeLogs".

Definition fallback_payload : json :=
  JDict [ (py "elements", JList [
    JDict [ (py "text", JStr (py "first")) ];
    JDict [ (py "text", JStr (py "second")) ] ]) ].

Definition fallback_world : world :=
  after_a_run (a_world [ (py "linkedin_access_token", py "secret") ]
                       [ (ugc_url, Response 403 None);
                         (change_logs_url, Response 200 (Some fallback_payload)) ]).

(** A commit with a long identifier and a message of three lines. *)
Definition a_commit : list (pystr * json) :=
  [ (py "sha", JStr (py "0123456789abcdef"));
    (py "commit", JDict [ (py "message", JStr (py "Fix the parser

Details follow.")) ]) ].

(** The account "someone", with no repository, and with one repository
    whose commits cannot be fetched. *)
Definition repos_url : pystr := py "https://api.github.com/users/someone/repos".

Definition no_repository_world : world :=
  a_world [ (py "PORTFOLIO_GITHUB", py "someone") ]
          [ (repos_url, Response 200 (Some (JList []))) ].

Definition a_repository : list (pystr * json) :=
  [ (py "full_name", JStr (py "someone/site"));
    (py "name", JStr (py "site"));
    (py "pushed_at", JStr (py "2024-04-30T10:00:00Z")) ].

Definition one_repository_world : world :=
  a_world [ (py "PORTFOLIO_GITHUB", py "someone") ]
          [ (repos_url, Response 200 (Some (JList [JDict a_repository]))) ].

(** The channel lookup answers with no item; with an item that lacks
    "contentDetails"; and with the uploads playlist, whose items then
    cannot be fetched. *)
Definition no_channel_world : world :=
  a_world [ (py "youtube_api_key", py "key");
            (py "youtube_channel_ID", py "UC123") ]
          [ (channels_url, Response 200 (Some (JDict [ (py "items", JList []) ]))) ].

Definition bare_channel_item : json := JDict [ (py "id", JStr (py "UC123")) ].

Definition bare_channel_world : world :=
  a_world [ (py "youtube_api_key", py "key");
            (py "youtube_channel_ID", py "UC123") ]
          [ (channels_url,
             Response 200 (Some (JDict [ (py "items", JList [bare_channel_item]) ]))) ].

Definition items_unreachable_world : world :=
  a_world [ (py "youtube_api_key", py "key");
            (py "youtube_channel_ID", py "UC123") ]
          [ (channels_url, Response 200 (Some channels_answer)) ].

(** Everything configured: ugcPosts answers 403, and the five other
    endpoints answer. *)
Definition busy_world : world :=
  a_world [ (py "linkedin_access_token", py "secret");
            (py "PORTFOLIO_GITHUB", py "someone");
            (py "youtube_api_key", py "key");
            (py "youtube_channel_ID", py "UC123") ]
          [ (ugc_url, Response 403 None);
            (change_logs_url, Response 200 (Some fallback_payload));
            (repos_url, Response 200 (Some (JList [JDict a_repository])));
            (py "https://api.github.com/repos/someone/site/commits",
             Response 200 (Some (JList [JDict a_commit])));
            (channels_url, Response 200 (Some channels_answer));
            (playlist_items_url,
             Response 200 (Some (JDict [ (py "items",
                                          JList (map video_item [1; 2])) ]))) ].

(** * Properties *)

(** ** Strings and dates *)

Example split_example :
  split (py "  Hello   world
 this ") = [py "Hello"; py "world"; py "this"].
Proof. reflexivity. Qed.

Example isoformat_example :
  isoformat (mkDatetime 2023 11 14 22 13 20 0) = py "2023-11-14T22:13:20"
  /\ isoformat (mkDatetime 2023 1 4 2 3 0 1500) = py "2023-01-04T02:03:00.001500".
Proof. split; reflexivity. Qed.

Example utc_example :
  isoformat (utc_of_ms 1700000000000) = py "2023-11-14T22:13:20"
  /\ host_timestamp_ms_before 0 (utc_of_ms 1700000000000) = 1700000000000
  /\ decimal 1234567890 = py "1234567890" /\ decimal 0 = py "0"
  /\ decimal (-42) = py "-42".
Proof. repeat split; vm_compute; reflexivity. Qed.

(** ** The output document (generate_data_json) *)

(** *** [split] and the words of a string *)

Lemma split_aux_spaces sp r :
  all_space sp = true -> split_aux [] (sp ++ r) = split_aux [] r.
Proof.
  induction sp as [|c sp IH]; simpl; [reflexivity|].
  intros [Hc Hsp]%andb_prop. rewrite Hc. auto.
Qed.

Lemma split_aux_word w : forall cur r,
  no_space w = true -> split_aux cur (w ++ r) = split_aux (rev w ++ cur) r.
Proof.
  induction w as [|c w IH]; simpl; intros cur r H; [reflexivity|].
  apply andb_prop in H as [Hc Hw].
  apply negb_true_iff in Hc. rewrite Hc, IH by assumption.
  now rewrite <- app_assoc.
Qed.

Lemma split_aux_flush cur r :
  cur <> [] -> starts_with_space r ->
  split_aux cur r = rev cur :: split_aux [] r.
Proof.
  intros Hcur Hr. destruct r as [|c r]; simpl in *.
  - destruct cur; congruence.
  - rewrite Hr. destruct cur; congruence.
Qed.

(** A string has one decomposition into words, the one [split] computes. *)
Lemma words_of_split s ws : words_of s ws -> split s = ws.
Proof.
  unfold split. induction 1 as [sp Hsp | sp w rest ws Hsp Hne Hw Hrest _ IH].
  - rewrite <- (app_nil_r sp). now rewrite split_aux_spaces.
  - rewrite split_aux_spaces, split_aux_word by assumption.
    rewrite app_nil_r, split_aux_flush, rev_involutive, IH; auto.
    intros Hrev. apply Hne. now rewrite <- (rev_involutive w), Hrev.
Qed.

Lemma words_of_space_cons c s ws :
  isspace c = true -> words_of s ws -> words_of (c :: s) ws.
Proof.
  intros Hc H. destruct H as [sp Hsp | sp w rest ws Hsp Hne Hw Hrest H].
  - apply words_none. simpl. now rewrite Hc.
  - apply (words_some (c :: sp)); auto. simpl. now rewrite Hc.
Qed.

Lemma no_space_snoc s c :
  no_space s = true -> isspace c = false -> no_space (s ++ [c]) = true.
Proof.
  intros Hs Hc. unfold no_space in *. rewrite forallb_app, Hs. simpl. now rewrite Hc.
Qed.

Lemma split_aux_words_of s : forall cur,
  no_space (rev cur) = true -> words_of (rev cur ++ s) (split_aux cur s).
Proof.
  induction s as [|c s IH]; intros cur Hcur.
  - simpl. destruct cur as [|a cur].
    + now apply words_none.
    + rewrite <- (app_nil_r (rev (a :: cur) ++ [])), <- app_assoc.
      apply (words_some [] (rev (a :: cur)) []); simpl; auto.
      * intros E. apply app_eq_nil in E as [_ E]. discriminate.
      * now apply words_none.
  - simpl. destruct (isspace c) eqn:Hc.
    + assert (Hs : words_of (c :: s) (split_aux [] s))
        by (apply words_of_space_cons; [assumption | apply (IH []); reflexivity]).
      destruct cur as [|a cur]; [exact Hs|].
      apply (words_some [] (rev (a :: cur)) (c :: s)); simpl; auto.
      intros E. apply app_eq_nil in E as [_ E]. discriminate.
    + specialize (IH (c :: cur)). simpl in IH.
      rewrite <- app_assoc in IH. simpl in IH. apply IH.
      now apply no_space_snoc.
Qed.

Lemma split_words_of s : words_of s (split s).
Proof. apply (split_aux_words_of s []). reflexivity. Qed.

Lemma length_take_5 {A} (l : list A) :
  (5 <=? length (take 5 l))%nat = (5 <=? length l)%nat.
Proof.
  rewrite length_take. destruct (Nat.leb_spec 5 (length l)).
  - rewrite Nat.min_l by assumption. reflexivity.
  - rewrite Nat.min_r by lia. apply Nat.leb_gt. assumption.
Qed.

(** What [generate_data_json] writes when the preview step does not raise. *)
Lemma generate_data_json_writes posts latest github_activity youtube_videos w :
  latest_post_preview posts = Ok latest ->
  exists name title contact last_updated,
    generate_data_json posts github_activity youtube_videos w =
    (Ok tt,
     set_data_file
       (JDict [ (py "name", name);
                (py "title", title);
                (py "linkedin_posts", JList posts);
                (py "latest_linkedin_post", latest);
                (py "github_activity", github_activity);
                (py "youtube_videos", JList youtube_videos);
                (py "contact", contact);
                (py "last_updated", last_updated) ])
       (tick w)).
Proof.
  intros H. unfold generate_data_json, bind, lift. rewrite H.
  do 4 eexists. reflexivity.
Qed.

Lemma latest_post_preview_total (posts : list NormalizedPost) :
  latest_post_preview (map post_json posts) =
  Ok match posts with
     | [] => JNull
     | p :: _ => JDict [ (py "preview", JStr (preview_of (post_content p)));
                         (py "url", JStr (post_url p));
                         (py "full_content", JStr (post_content p)) ]
     end.
Proof. destruct posts; reflexivity. Qed.

(** C1. Whatever the three fetchers returned (any list of normalized
    posts, empty or not; any code-activity value, null or not; any list of
    videos, empty or not), [generate_data_json] returns normally and the
    document it writes has exactly the eight top-level keys of the output
    document, in order; the posts, the code activity and the videos are
    stored as they were passed (an empty list stays an empty list, null
    stays null), and the preview is null when there is no post. *)
Theorem output_document_has_all_keys
    (posts : list NormalizedPost) (github_activity : json)
    (youtube_videos : list json) (w : world) :
  exists doc w',
    generate_data_json (map post_json posts) github_activity youtube_videos w
      = (Ok tt, w')
    /\ data_file w' = Some (JDict doc)
    /\ dict_keys doc = OUTPUT_KEYS
    /\ dict_lookup (py "linkedin_posts") doc = Some (JList (map post_json posts))
    /\ dict_lookup (py "github_activity") doc = Some github_activity
    /\ dict_lookup (py "youtube_videos") doc = Some (JList youtube_videos)
    /\ (exists v, dict_lookup (py "latest_linkedin_post") doc = Some v
                  /\ (v = JNull <-> posts = [])).
Proof.
  destruct (generate_data_json_writes _ _ github_activity youtube_videos w
              (latest_post_preview_total posts))
    as (name & title & contact & last_updated & E).
  eexists _, _. split; [exact E|].
  split; [reflexivity|].
  repeat (split; [reflexivity|]).
  eexists. split; [reflexivity|].
  destruct posts; split; intros; congruence.
Qed.

(** C2. The document carries a preview object exactly when there is a
    post: with no post the field is null; otherwise the content of the
    first post has one decomposition [ws] into whitespace-separated words,
    and the preview is the first five of them joined by single spaces,
    followed by "..." if and only if there are five words or more. *)
Theorem latest_post_preview_rule
    (posts : list NormalizedPost) (github_activity : json)
    (youtube_videos : list json) (w : world) :
  exists doc w',
    generate_data_json (map post_json posts) github_activity youtube_videos w
      = (Ok tt, w')
    /\ data_file w' = Some (JDict doc)
    /\ match posts with
       | [] => dict_lookup (py "latest_linkedin_post") doc = Some JNull
       | p :: _ =>
           exists ws,
             words_of (post_content p) ws
             /\ (forall ws', words_of (post_content p) ws' -> ws' = ws)
             /\ dict_lookup (py "latest_linkedin_post") doc =
                Some (JDict [ (py "preview",
                               JStr (join (py " ") (take 5 ws)
                                       ++ (if (5 <=? length ws)%nat
                                           then py "..." else [])));
                              (py "url", JStr (post_url p));
                              (py "full_content", JStr (post_content p)) ])
       end.
Proof.
  destruct (generate_data_json_writes _ _ github_activity youtube_videos w
              (latest_post_preview_total posts))
    as (name & title & contact & last_updated & E).
  eexists _, _. split; [exact E|]. split; [reflexivity|].
  destruct posts as [|p posts]; [reflexivity|].
  exists (split (post_content p)). split; [apply split_words_of|].
  split; [intros ws' H; symmetry; now apply words_of_split|].
  unfold preview_of. rewrite length_take_5. reflexivity.
Qed.

(** Four words: no ellipsis.  Five words: ellipsis. *)
Example preview_four_words :
  latest_post_preview [post_json (mkPost [] (py "one two three  four") [] [])]
  = Ok (JDict [ (py "preview", JStr (py "one two three four"));
                (py "url", JStr []);
                (py "full_content", JStr (py "one two three  four")) ]).
Proof. reflexivity. Qed.

Example preview_five_words :
  latest_post_preview [post_json (mkPost [] (py "one two three four five") [] [])]
  = Ok (JDict [ (py "preview", JStr (py "one two three four five..."));
                (py "url", JStr []);
                (py "full_content", JStr (py "one two three four five")) ]).
Proof. reflexivity. Qed.

(** ** Computations that leave the output document alone *)

Lemma keeps_ret {A} (a : A) : keeps_data_file (ret a).
Proof. intros w. reflexivity. Qed.

Lemma keeps_raise {A} e : keeps_data_file (@raise A e).
Proof. intros w. reflexivity. Qed.

Lemma keeps_lift {A} (r : result A) : keeps_data_file (lift r).
Proof. intros w. reflexivity. Qed.

Lemma keeps_bind {A B} (m : M A) (k : A -> M B) :
  keeps_data_file m -> (forall a, keeps_data_file (k a)) ->
  keeps_data_file (bind m k).
Proof.
  intros Hm Hk w. unfold bind. specialize (Hm w).
  destruct (m w) as [[a|e] w1]; simpl in *; [|assumption].
  now rewrite Hk.
Qed.

Lemma keeps_try_except {A} (m : M A) catches h :
  keeps_data_file m -> (forall e, keeps_data_file (h e)) ->
  keeps_data_file (try_except m catches h).
Proof.
  intros Hm Hh w. unfold try_except. specialize (Hm w).
  destruct (m w) as [[a|e] w1]; simpl in *; [assumption|].
  destruct (catches e); simpl; [|assumption].
  now rewrite Hh.
Qed.

Lemma keeps_for_each {A B} (body : B -> A -> M B) (xs : list A) :
  (forall acc x, keeps_data_file (body acc x)) ->
  forall acc, keeps_data_file (for_each xs acc body).
Proof.
  intros Hbody. induction xs as [|x xs IH]; intros acc; simpl.
  - apply keeps_ret.
  - apply keeps_bind; auto.
Qed.

Lemma keeps_if {A} (b : bool) (m1 m2 : M A) :
  keeps_data_file m1 -> keeps_data_file m2 ->
  keeps_data_file (if b then m1 else m2).
Proof. destruct b; auto. Qed.

Lemma keeps_getenv k : keeps_data_file (getenv k).
Proof. intros w. reflexivity. Qed.

Lemma keeps_getenv_default k d : keeps_data_file (getenv_default k d).
Proof. intros w. reflexivity. Qed.

Lemma keeps_datetime_now : keeps_data_file datetime_now.
Proof. intros w. reflexivity. Qed.

Lemma keeps_requests_get r : keeps_data_file (requests_get r).
Proof. intros w. unfold requests_get. destruct (network w r); reflexivity. Qed.

Lemma keeps_raise_for_status resp : keeps_data_file (raise_for_status resp).
Proof. intros w. unfold raise_for_status. destruct (_ && _); reflexivity. Qed.

Lemma keeps_response_json json_error resp :
  keeps_data_file (response_json json_error resp).
Proof. intros w. unfold response_json. destruct (snd resp); reflexivity. Qed.

Lemma keeps_write_raw v : keeps_data_file (write_raw_linkedin_file v).
Proof. intros w. reflexivity. Qed.

Lemma keeps_load_env : keeps_data_file load_env.
Proof. intros w. unfold load_env. destruct (dotenv_file w); reflexivity. Qed.

Create HintDb frame.
#[local] Hint Resolve keeps_ret keeps_raise keeps_lift keeps_getenv
  keeps_getenv_default keeps_datetime_now keeps_requests_get
  keeps_raise_for_status keeps_response_json keeps_write_raw keeps_load_env
  : frame.

(** Walks through a computation built from binds, handlers, loops and
    conditionals. *)
Ltac frame :=
  repeat first
    [ apply keeps_bind; [|intros ?]
    | apply keeps_try_except; [|intros ?]
    | apply keeps_for_each; intros ? ?
    | apply keeps_if
    | solve [auto with frame]
    | match goal with
      | |- keeps_data_file (match ?x with _ => _ end) => destruct x
      end ].

Lemma raises_before_writing_bind {A B} (m : M A) (k : A -> M B) :
  keeps_data_file m -> (forall a, raises_before_writing (k a)) ->
  raises_before_writing (bind m k).
Proof.
  intros Hm Hk w e w' E. unfold bind in E. specialize (Hm w).
  destruct (m w) as [[a|e1] w1]; simpl in *.
  - rewrite <- Hm. eapply Hk, E.
  - now inversion E; subst.
Qed.

Section Frame.

Variable fromtimestamp : json -> result datetime.
Variable repr_other : json -> pystr.
Variable timestamp_ms_before : Z -> datetime -> Z.
Variable json_error : exn.

Lemma keeps_fetch_linkedin_data :
  keeps_data_file (fetch_linkedin_data timestamp_ms_before json_error).
Proof. unfold fetch_linkedin_data. frame. Qed.

Lemma keeps_element_date element :
  keeps_data_file (element_date fromtimestamp element).
Proof. unfold element_date. frame. Qed.

Lemma keeps_parse_element element :
  keeps_data_file (parse_element fromtimestamp repr_other element).
Proof.
  pose proof keeps_element_date.
  unfold parse_element, parse_ugc_post, parse_changelog. frame.
Qed.

Lemma keeps_parse_linkedin_posts data :
  keeps_data_file (parse_linkedin_posts fromtimestamp repr_other data).
Proof.
  pose proof keeps_parse_element.
  unfold parse_linkedin_posts, append_post. frame.
Qed.

Lemma keeps_fetch_github_activity :
  keeps_data_file (fetch_github_activity repr_other json_error).
Proof. unfold fetch_github_activity. frame. Qed.

Lemma keeps_fetch_youtube_uploads_playlist :
  keeps_data_file (fetch_youtube_uploads_playlist json_error).
Proof. unfold fetch_youtube_uploads_playlist. frame. Qed.

Lemma keeps_fetch_youtube_latest_videos max_results :
  keeps_data_file (fetch_youtube_latest_videos json_error max_results).
Proof.
  pose proof keeps_fetch_youtube_uploads_playlist.
  unfold fetch_youtube_latest_videos, append_video. frame.
Qed.

(** [generate_data_json] can only raise in its first step, the preview. *)
Lemma generate_data_json_raises posts github_activity youtube_videos :
  raises_before_writing (generate_data_json posts github_activity youtube_videos).
Proof.
  intros w e w' E. unfold generate_data_json, bind, lift in E.
  destruct (latest_post_preview posts); simpl in E; inversion E; subst.
  reflexivity.
Qed.

End Frame.

(** ** Missing credentials and fatal errors *)

Section Credentials.

Variable fromtimestamp : json -> result datetime.
Variable repr_other : json -> pystr.
Variable timestamp_ms_before : Z -> datetime -> Z.
Variable json_error : exn.

(** C8. A missing (unset or empty) account identifier makes
    [fetch_github_activity] return [None], and a missing API key or
    channel identifier makes [fetch_youtube_latest_videos] return [[]];
    neither raises, neither touches the world (no request is sent), and
    each holds whatever the state of the other credential, which covers
    the four combinations. *)
Theorem missing_credentials_degrade (w : world) (max_results : Z) :
  (env_missing (environ w !! py "PORTFOLIO_GITHUB") = true ->
   fetch_github_activity repr_other json_error w = (Ok JNull, w))
  /\ (env_missing (environ w !! py "youtube_api_key") = true
      \/ env_missing (environ w !! py "youtube_channel_ID") = true ->
      fetch_youtube_latest_videos json_error max_results w = (Ok [], w)).
Proof.
  split.
  - intros H. unfold fetch_github_activity, bind, getenv. now rewrite H.
  - intros H.
    unfold fetch_youtube_latest_videos, fetch_youtube_uploads_playlist,
      bind, getenv.
    assert (E : env_missing (environ w !! py "youtube_api_key")
                || env_missing (environ w !! py "youtube_channel_ID") = true)
      by (destruct H as [-> | ->]; [reflexivity | apply orb_true_r]).
    now rewrite E.
Qed.

Lemma fetch_linkedin_data_no_token (w : world) :
  env_missing (environ w !! py "linkedin_access_token") = true ->
  fetch_linkedin_data timestamp_ms_before json_error w = (Raise ValueError, w).
Proof.
  intros H. unfold fetch_linkedin_data, bind at 1, getenv. now rewrite H.
Qed.

(** C9. When the .env file is missing, [main] raises
    [FileNotFoundError]; when the file is there but leaves
    [linkedin_access_token] unset or empty, [main] raises [ValueError];
    and whenever [main] raises, whatever the exception, the output
    document is the one the run found. *)
Theorem fatal_errors_keep_document (w : world) :
  (dotenv_file w = None ->
   exists w', main fromtimestamp repr_other timestamp_ms_before json_error w
              = (Raise FileNotFoundError, w')
              /\ data_file w' = data_file w)
  /\ (forall vars,
        dotenv_file w = Some vars ->
        env_missing ((environ w ∪ vars) !! py "linkedin_access_token") = true ->
        exists w', main fromtimestamp repr_other timestamp_ms_before json_error w
                   = (Raise ValueError, w')
                   /\ data_file w' = data_file w)
  /\ (forall e w',
        main fromtimestamp repr_other timestamp_ms_before json_error w
        = (Raise e, w') ->
        data_file w' = data_file w).
Proof.
  split; [|split].
  - intros H. exists w. split; [|reflexivity].
    unfold main, try_except, bind, load_env. now rewrite H.
  - intros vars H Htoken. eexists. split.
    + unfold main, try_except, bind at 1, load_env. rewrite H.
      unfold bind at 1.
      rewrite (fetch_linkedin_data_no_token (set_environ (environ w ∪ vars) w))
        by exact Htoken.
      reflexivity.
    + reflexivity.
  - intros e w' E. unfold main, try_except in E.
    match type of E with
    | context [match ?body w with _ => _ end] =>
        assert (Hbody : raises_before_writing body)
    end.
    { apply raises_before_writing_bind; [apply keeps_load_env | intros _].
      apply raises_before_writing_bind;
        [apply keeps_fetch_linkedin_data | intros data].
      apply raises_before_writing_bind;
        [apply keeps_parse_linkedin_posts | intros posts].
      apply raises_before_writing_bind;
        [apply keeps_fetch_github_activity | intros activity].
      apply raises_before_writing_bind;
        [apply keeps_fetch_youtube_latest_videos | intros videos].
      apply generate_data_json_raises. }
    match type of E with
    | context [match ?body w with _ => _ end] =>
        specialize (Hbody w); destruct (body w) as [[[]|e1] w1]
    end.
    + discriminate.
    + simpl in E. unfold raise in E. inversion E; subst. eapply Hbody. reflexivity.
Qed.

End Credentials.

(** ** The raw debug artifact (fetch_linkedin_data) *)

(** Splits a run on every test it makes, then reads off the outcome. *)
Ltac run_cases E :=
  repeat match type of E with
         | context [match ?x with _ => _ end] =>
             lazymatch x with
             | context [match _ with _ => _ end] => fail
             | _ => destruct x
             end
         end;
  inversion E; subst.

Section RawFile.

Variable timestamp_ms_before : Z -> datetime -> Z.
Variable json_error : exn.

(** C10. With an access token configured: when the ugcPosts endpoint
    gives no 200 response and the memberChangeLogs endpoint fails (no
    response, or a 4xx or 5xx one), [fetch_linkedin_data] returns
    [{"elements": []}] without raising and the raw debug file is what it
    was; and whenever a run changes the raw debug file, a request of that
    run was answered with a JSON body and a status that
    [raise_for_status] accepts, and the file holds that body. *)
Theorem linkedin_failure_keeps_raw_file (w : world) (token : pystr) :
  environ w !! py "linkedin_access_token" = Some token ->
  token <> [] ->
  let primary := network w (ugc_posts_request token) in
  let fallback :=
    network w (change_logs_request token
                 (timestamp_ms_before DAYS_BACK (clock w (ticks w)))) in
  (not_ok primary = true -> failed fallback = true ->
   exists w',
     fetch_linkedin_data timestamp_ms_before json_error w
     = (Ok (JDict [(py "elements", JList [])]), w')
     /\ raw_linkedin_file w' = raw_linkedin_file w)
  /\ (forall r w',
        fetch_linkedin_data timestamp_ms_before json_error w = (r, w') ->
        raw_linkedin_file w' <> raw_linkedin_file w ->
        exists req st data,
          In req (sent w')
          /\ network w req = Response st (Some data)
          /\ failed (Response st (Some data)) = false
          /\ raw_linkedin_file w' = Some data).
Proof.
  intros Henv Htoken primary fallback.
  assert (Hmissing : env_missing (Some token) = false)
    by (destruct token; [congruence | reflexivity]).
  unfold fetch_linkedin_data, try_except, bind, getenv, requests_get,
    raise_for_status, response_json, datetime_now, write_raw_linkedin_file,
    lift, ret, raise.
  rewrite Henv, Hmissing. cbn [default from_option]. unfold id.
  subst primary fallback.
  destruct (network w (ugc_posts_request token)) as [|st1 b1] eqn:E1;
    cbn [fst snd network record_request tick clock ticks not_ok failed].
  { split.
    - intros _ _. eexists. split; reflexivity.
    - intros r w' E. inversion E; subst. intros Hne. now contradiction Hne. }
  destruct (st1 =? 200) eqn:E200; cbn [negb].
  - (* the ugcPosts endpoint answered 200 *)
    apply Z.eqb_eq in E200. subst st1.
    split; [discriminate|].
    cbn [fst snd]. change ((400 <=? 200) && (200 <? 600)) with false.
    cbv iota beta.
    intros r w' E Hne.
    destruct b1 as [data|]; cbn [raw_linkedin_file] in E.
    + exists (ugc_posts_request token), 200, data.
      assert (w' = set_raw_linkedin_file data
                     (record_request (ugc_posts_request token) w)) as ->
        by (now run_cases E).
      repeat split; auto. cbn. apply in_or_app. right. now left.
    + assert (w' = record_request (ugc_posts_request token) w) as ->
        by (destruct (is_request_exception json_error); now inversion E).
      now contradiction Hne.
  - (* it did not: the script turns to memberChangeLogs *)
    cbn [network record_request tick clock ticks].
    destruct (network w (change_logs_request token _)) as [|st2 b2] eqn:E2;
      cbn [fst snd failed is_request_exception].
    { split.
      - intros _ _. eexists. split; reflexivity.
      - intros r w' E. inversion E; subst. intros Hne. now contradiction Hne. }
    destruct ((400 <=? st2) && (st2 <? 600)) eqn:E4xx;
      cbn [is_request_exception].
    { split.
      - intros _ _. eexists. split; reflexivity.
      - intros r w' E. inversion E; subst. intros Hne. now contradiction Hne. }
    split; [discriminate|].
    intros r w' E Hne.
    destruct b2 as [data|].
    + eexists _, st2, data.
      match type of E with
      | context [set_raw_linkedin_file data ?w0] =>
          assert (w' = set_raw_linkedin_file data w0) as ->
            by (now run_cases E)
      end.
      split; [|split; [exact E2|split; [exact E4xx|reflexivity]]].
      cbn. apply in_or_app. right. now left.
    + match type of E with
      | context [(Raise json_error, ?w0)] =>
          assert (w' = w0) as ->
            by (destruct (is_request_exception json_error); now inversion E)
      end.
      now contradiction Hne.
Qed.

End RawFile.

(** ** The post normalizer (parse_linkedin_posts) *)

Lemma dict_lookup_keys k d : is_Some (dict_lookup k d) <-> k ∈ dict_keys d.
Proof.
  induction d as [|[k' v] d IH]; simpl.
  - split; [intros [x Hx]; discriminate | intros H; inversion H].
  - rewrite elem_of_cons. case_bool_decide as E.
    + split; eauto.
    + rewrite IH. split; [tauto | intros [? | ?]; [congruence | assumption]].
Qed.

Lemma py_in_dict_true k d :
  k ∈ dict_keys d -> py_in k (JDict d) = Ok true.
Proof.
  intros H. simpl. f_equal. apply bool_decide_eq_true. now apply dict_lookup_keys.
Qed.

Lemma py_in_dict_false k d :
  k ∉ dict_keys d -> py_in k (JDict d) = Ok false.
Proof.
  intros H. simpl. f_equal. apply bool_decide_eq_false.
  now rewrite dict_lookup_keys.
Qed.

Section Normalizer.

Variable fromtimestamp : json -> result datetime.
Variable repr_other : json -> pystr.

Abbreviation parse_element' := (parse_element fromtimestamp repr_other).
Abbreviation parse_ugc_post' := (parse_ugc_post fromtimestamp repr_other).
Abbreviation parse_changelog' := (parse_changelog fromtimestamp repr_other).

(** The test of line 122 on a dict is a test on its keys. *)
Lemma parse_element_dict d w :
  parse_element' (JDict d) w =
  if bool_decide (py "specificContent" ∈ dict_keys d)
  then parse_ugc_post' (JDict d) w
  else parse_changelog' (JDict d) w.
Proof.
  unfold parse_element, bind at 1, lift. case_bool_decide as H.
  - now rewrite py_in_dict_true.
  - now rewrite py_in_dict_false.
Qed.

(** A record that either rule emits carries the text the rule extracted. *)
Lemma parse_ugc_post_content d w post w' :
  parse_ugc_post' (JDict d) w = (Ok (Some post), w') ->
  py_get post (py "content") empty_str = ugc_content (JDict d).
Proof.
  unfold parse_ugc_post, bind, lift. cbn [py_get].
  destruct (ugc_content (JDict d)) as [content|]; [|discriminate].
  destruct (element_date _ _ w) as [[date|] w1]; [|discriminate].
  destruct (truthy content); intros E; inversion E; subst. reflexivity.
Qed.

Lemma parse_changelog_content d w post w' :
  parse_changelog' (JDict d) w = (Ok (Some post), w') ->
  py_get post (py "content") empty_str = changelog_content (JDict d).
Proof.
  unfold parse_changelog, bind, lift. cbn [py_get].
  destruct (changelog_content (JDict d)) as [content|]; [|discriminate].
  destruct (element_date _ _ w) as [[date|] w1]; [|discriminate].
  destruct (_ || _); intros E; inversion E; subst. reflexivity.
Qed.

(** C6. An element that has a "specificContent" key is parsed by the
    ugcPosts rule, whatever other keys it has ("commentary" included), so
    a record it yields carries the shareCommentary text; the change-log
    rule is applied to the elements without that key. *)
Theorem shape_detection (d : list (pystr * json)) (w : world) :
  (py "specificContent" ∈ dict_keys d ->
   parse_element' (JDict d) w = parse_ugc_post' (JDict d) w
   /\ forall post w',
        parse_element' (JDict d) w = (Ok (Some post), w') ->
        py_get post (py "content") empty_str = ugc_content (JDict d))
  /\ (py "specificContent" ∉ dict_keys d ->
      parse_element' (JDict d) w = parse_changelog' (JDict d) w).
Proof.
  rewrite parse_element_dict.
  split; intros H.
  - rewrite bool_decide_eq_true_2 by assumption.
    split; [reflexivity|]. intros post w'. apply parse_ugc_post_content.
  - now rewrite bool_decide_eq_false_2.
Qed.



Lemma for_each_append_post_yields elements : forall outcomes acc w,
  Forall2 (fun e r => element_yields fromtimestamp repr_other e (Ok r)) elements outcomes ->
  for_each elements acc (append_post fromtimestamp repr_other) w
  = (Ok (acc ++ omap id outcomes), w).
Proof.
  induction elements as [|e elements IH]; intros outcomes acc w H;
    inversion H as [|? r ? outcomes' He Hrest]; subst; simpl.
  - now rewrite app_nil_r.
  - unfold bind at 1, append_post at 1, bind at 1. rewrite He.
    unfold ret at 1. rewrite (IH outcomes') by assumption.
    destruct r; simpl; [now rewrite <- app_assoc | now rewrite app_nil_r].
Qed.

Lemma for_each_app {A B} (body : B -> A -> M B) (xs ys : list A) : forall acc w,
  for_each (xs ++ ys) acc body w
  = bind (for_each xs acc body) (fun acc' => for_each ys acc' body) w.
Proof.
  induction xs as [|x xs IH]; intros acc w; simpl; [reflexivity|].
  unfold bind at 1 2 3. destruct (body acc x w) as [[acc'|e] w1]; [|reflexivity].
  rewrite IH. reflexivity.
Qed.

Lemma parse_linkedin_posts_list d elements w :
  dict_lookup (py "elements") d = Some (JList elements) ->
  parse_linkedin_posts fromtimestamp repr_other (JDict d) w
  = bind (for_each elements [] (append_post fromtimestamp repr_other))
         (fun posts => ret (take 5 posts)) w.
Proof.
  intros H. unfold parse_linkedin_posts, bind at 1, lift at 1. cbn [py_get].
  rewrite H. cbn [default from_option]. unfold id.
  destruct elements as [|e elements]; [reflexivity|].
  cbn [truthy negb]. reflexivity.
Qed.



(** C5, as the code has it.  For an element without "specificContent":
    if it has a "commentary" key, the text is that object's "text", the
    empty string when the object has none (a top-level "text" is then not
    consulted); if it has no "commentary" key, the text is the top-level
    "text", the empty string when there is none.  A record the element
    yields carries that text. *)
Theorem changelog_content_rule (d : list (pystr * json)) (w : world) :
  py "specificContent" ∉ dict_keys d ->
  changelog_content (JDict d) =
    match dict_lookup (py "commentary") d with
    | Some commentary => py_get commentary (py "text") empty_str
    | None => Ok (default empty_str (dict_lookup (py "text") d))
    end
  /\ forall post w',
       parse_element' (JDict d) w = (Ok (Some post), w') ->
       py_get post (py "content") empty_str = changelog_content (JDict d).
Proof.
  intros Hkey. split.
  - unfold changelog_content. cbn [py_in py_get rbind].
    destruct (dict_lookup (py "commentary") d) as [commentary|].
    + rewrite bool_decide_eq_true_2 by eauto. reflexivity.
    + rewrite bool_decide_eq_false_2 by (intros [? ?]; discriminate).
      destruct (dict_lookup (py "text") d) as [text|].
      * rewrite bool_decide_eq_true_2 by eauto. reflexivity.
      * rewrite bool_decide_eq_false_2 by (intros [? ?]; discriminate).
        reflexivity.
  - intros post w'.
    rewrite parse_element_dict, bool_decide_eq_false_2 by assumption.
    apply parse_changelog_content.
Qed.

End Normalizer.

(** *** Repeated normalization *)

Lemma world_free_ret {A} (a : A) : world_free (ret a).
Proof. now exists (Ok a). Qed.

Lemma world_free_lift {A} (r : result A) : world_free (lift r).
Proof. now exists r. Qed.

Lemma world_free_bind {A B} (m : M A) (k : A -> M B) :
  world_free m -> (forall a, world_free (k a)) -> world_free (bind m k).
Proof.
  intros [[a|e] Hm] Hk; unfold bind.
  - destruct (Hk a) as [r Hr]. exists r. intros w. now rewrite Hm, Hr.
  - exists (Raise e). intros w. now rewrite Hm.
Qed.

Lemma world_free_bind_lift {A B} (r : result A) (k : A -> M B) :
  (forall a, r = Ok a -> world_free (k a)) -> world_free (bind (lift r) k).
Proof.
  intros Hk. unfold bind, lift. destruct r as [a|e].
  - destruct (Hk a eq_refl) as [r Hr]. now exists r.
  - now exists (Raise e).
Qed.

Lemma world_free_if {A} (b : bool) (m1 m2 : M A) :
  world_free m1 -> world_free m2 -> world_free (if b then m1 else m2).
Proof. destruct b; auto. Qed.

Lemma world_free_for_each {A B} (body : B -> A -> M B) (xs : list A) :
  (forall acc x, In x xs -> world_free (body acc x)) ->
  forall acc, world_free (for_each xs acc body).
Proof.
  induction xs as [|x xs IH]; intros Hbody acc; simpl.
  - apply world_free_ret.
  - apply world_free_bind.
    + apply Hbody. now left.
    + intros acc'. apply IH. intros acc'' y Hy. apply Hbody. now right.
Qed.

Section Repeatable.

Variable fromtimestamp : json -> result datetime.
Variable repr_other : json -> pystr.

Lemma element_date_dated element :
  undated element = false -> world_free (element_date fromtimestamp element).
Proof.
  unfold undated, created_time, element_date, world_free, bind, lift, ret, rbind.
  destruct (py_get element _ _) as [created|e];
    [destruct (py_get created _ _) as [t|e];
     [destruct (truthy t); [destruct (fromtimestamp t)|discriminate]|]|];
    intros _; eexists; intros w; reflexivity.
Qed.

Lemma parse_element_dated element :
  undated element = false ->
  world_free (parse_element fromtimestamp repr_other element).
Proof.
  intros H. apply element_date_dated in H.
  unfold parse_element, parse_ugc_post, parse_changelog.
  repeat first
    [ assumption
    | apply world_free_lift
    | apply world_free_ret
    | apply world_free_bind; [|intros ?]
    | apply world_free_if
    | progress cbv zeta ].
Qed.

Lemma parse_linkedin_posts_dated linkedin_data :
  forallb (fun element => negb (undated element))
          (payload_elements linkedin_data) = true ->
  world_free (parse_linkedin_posts fromtimestamp repr_other linkedin_data).
Proof.
  intros H. unfold parse_linkedin_posts, payload_elements in *.
  apply world_free_bind_lift. intros elements E. rewrite E in H.
  destruct (truthy elements); [|apply world_free_ret].
  apply world_free_bind_lift. intros els E'. rewrite E' in H.
  apply world_free_bind; [|intros; apply world_free_ret].
  apply world_free_for_each. intros acc element Hin.
  apply world_free_bind; [|intros; apply world_free_ret].
  apply parse_element_dated.
  rewrite forallb_forall in H. apply H in Hin.
  now apply negb_true_iff in Hin.
Qed.

(** C3, as the code has it.  On a payload none of whose elements is
    undated, the normalizer returns the same outcome whenever it is run
    (in whatever world): every date comes from the payload.  An undated
    element is dated with [datetime.now()], and its record changes from
    one run to the next. *)
Theorem normalization_repeatable (linkedin_data : json) (w1 w2 : world) :
  forallb (fun element => negb (undated element))
          (payload_elements linkedin_data) = true ->
  fst (parse_linkedin_posts fromtimestamp repr_other linkedin_data w1)
  = fst (parse_linkedin_posts fromtimestamp repr_other linkedin_data w2).
Proof.
  intros H. destruct (parse_linkedin_posts_dated linkedin_data H) as [r Hr].
  now rewrite !Hr.
Qed.

End Repeatable.

(** ** The video list (fetch_youtube_latest_videos) *)

Lemma rmap_length {A B} (f : A -> result B) (xs : list A) : forall ys,
  rmap f xs = Ok ys -> length ys = length xs.
Proof.
  induction xs as [|x xs IH]; simpl; intros ys E.
  - now inversion E.
  - destruct (f x) as [y|]; [|discriminate]. simpl in E.
    destruct (rmap f xs) as [ys'|]; [|discriminate]. simpl in E.
    inversion E; subst. simpl. now rewrite (IH ys').
Qed.

(** The loop of lines 320-329 appends one summary per item. *)
Lemma for_each_append_video (items : list json) : forall videos w,
  for_each items videos append_video w =
  match rmap video_summary items with
  | Ok summaries => (Ok (videos ++ summaries), w)
  | Raise e => (Raise e, w)
  end.
Proof.
  induction items as [|item items IH]; intros videos w; simpl.
  - now rewrite app_nil_r.
  - unfold bind at 1, append_video at 1, bind at 1, lift, ret.
    destruct (video_summary item) as [video|e]; simpl; [|reflexivity].
    rewrite IH. destruct (rmap video_summary items); simpl; [|reflexivity].
    now rewrite <- app_assoc.
Qed.

Section Videos.

Variable json_error : exn.

(** C4, as the code has it.  When the uploads playlist is resolved and
    the playlistItems request (which carries [max_results] as its
    maxResults parameter) is answered with a JSON body whose items are
    all summarised without error, [fetch_youtube_latest_videos] returns
    one summary per item of the response, in order: the list is as long
    as the response's item list, which the fetcher does not truncate. *)
Theorem youtube_videos_one_per_item (w w1 : world) (max_results : Z)
    (playlist : json) (st : Z) (data : json) (items videos : list json) :
  fetch_youtube_uploads_playlist json_error w = (Ok playlist, w1) ->
  truthy playlist = true ->
  network w1 (playlist_items_request playlist max_results
                (environ w1 !! py "youtube_api_key"))
    = Response st (Some data) ->
  failed (Response st (Some data)) = false ->
  response_items data = Ok items ->
  rmap video_summary items = Ok videos ->
  exists w',
    fetch_youtube_latest_videos json_error max_results w = (Ok videos, w')
    /\ length videos = length items.
Proof.
  intros Hplaylist Htruthy Hnet Hstatus Hitems Hvideos.
  unfold fetch_youtube_latest_videos, bind at 1. rewrite Hplaylist, Htruthy.
  cbn [negb]. unfold bind at 1, getenv, try_except, bind at 1, requests_get.
  rewrite Hnet. unfold bind at 1, raise_for_status. cbn [fst failed] in *.
  rewrite Hstatus. unfold ret at 1, bind at 1, response_json. cbn [snd].
  unfold ret at 1. unfold response_items, rbind in Hitems.
  unfold bind at 1, lift at 1.
  destruct (py_get data (py "items") (JList [])) as [v|]; [|discriminate].
  unfold bind at 1, lift at 1. rewrite Hitems.
  rewrite for_each_append_video, Hvideos. cbn [app].
  eexists. split; [reflexivity|]. exact (rmap_length _ _ _ Hvideos).
Qed.

End Videos.

(** * The script on concrete inputs *)

(** ** Normalizer *)

(** C3 fails as stated: the same payload, normalized at 09:00:00 and one
    second later, gives two different lists. *)
Lemma normalization_not_repeatable :
  fst (parse_linkedin_posts host_fromtimestamp host_repr_other
         undated_payload offline_world)
    = Ok [hi_post "2024-05-01T09:00:00"]
  /\ fst (parse_linkedin_posts host_fromtimestamp host_repr_other
            undated_payload (tick offline_world))
     = Ok [hi_post "2024-05-01T09:00:01"]
  /\ fst (parse_linkedin_posts host_fromtimestamp host_repr_other
            undated_payload offline_world)
     <> fst (parse_linkedin_posts host_fromtimestamp host_repr_other
               undated_payload (tick offline_world)).
Proof.
  assert (E1 : fst (parse_linkedin_posts host_fromtimestamp host_repr_other
                      undated_payload offline_world)
               = Ok [hi_post "2024-05-01T09:00:00"]) by (vm_compute; reflexivity).
  assert (E2 : fst (parse_linkedin_posts host_fromtimestamp host_repr_other
                      undated_payload (tick offline_world))
               = Ok [hi_post "2024-05-01T09:00:01"]) by (vm_compute; reflexivity).
  split; [exact E1|]. split; [exact E2|].
  rewrite E1, E2. vm_compute. discriminate.
Qed.

(** The payload of scenario 1 carries its date: it normalizes to the same
    list at both times. *)
Lemma normalization_repeatable_witness :
  forallb (fun element => negb (undated element))
          (payload_elements scenario_1_payload) = true
  /\ fst (parse_linkedin_posts host_fromtimestamp host_repr_other
            scenario_1_payload offline_world)
     = fst (parse_linkedin_posts host_fromtimestamp host_repr_other
              scenario_1_payload (tick offline_world)).
Proof.
  split; [reflexivity|].
  apply (normalization_repeatable host_fromtimestamp host_repr_other
           scenario_1_payload offline_world (tick offline_world)).
  reflexivity.
Defined.

(** C5 fails as stated: "commentary.text" is absent and "text" is
    present, yet the record carries the empty string, not "hello". *)
Lemma changelog_content_ignores_text :
  spec_fallback_content empty_commentary_element = JStr (py "hello")
  /\ changelog_content (JDict empty_commentary_element) = Ok (JStr [])
  /\ fst (parse_linkedin_posts host_fromtimestamp host_repr_other
            (JDict [ (py "elements", JList [ JDict empty_commentary_element ]) ])
            offline_world)
     = Ok [ JDict [ (py "date", JStr (py "2024-05-01T09:00:00"));
                    (py "content", JStr []);
                    (py "url",
                     JStr (py "https://www.linkedin.com/feed/update/urn:li:activity:1/"));
                    (py "entity_urn", JStr (py "urn:li:activity:1")) ] ]
  /\ changelog_content (JDict empty_commentary_element)
     <> Ok (spec_fallback_content empty_commentary_element).
Proof.
  repeat split; try (vm_compute; reflexivity).
  vm_compute. discriminate.
Qed.

(** With a commentary text, the record carries it and not the top-level
    text. *)
Lemma changelog_content_rule_witness :
  (py "specificContent" ∉ dict_keys commentary_element)
  /\ changelog_content (JDict commentary_element)
     = Ok (JStr (py "from commentary")).
Proof.
  assert (H : py "specificContent" ∉ dict_keys commentary_element)
    by (apply (bool_decide_eq_true_1 (_ ∉ _)); vm_compute; reflexivity).
  split; [exact H|].
  rewrite (proj1 (changelog_content_rule host_fromtimestamp host_repr_other
                    commentary_element offline_world H)).
  reflexivity.
Defined.

(** With both keys, the ugcPosts rule applies. *)
Lemma shape_detection_witness :
  (py "specificContent" ∈ dict_keys both_keys_element)
  /\ parse_element host_fromtimestamp host_repr_other
       (JDict both_keys_element) offline_world
     = parse_ugc_post host_fromtimestamp host_repr_other
         (JDict both_keys_element) offline_world.
Proof.
  assert (H : py "specificContent" ∈ dict_keys both_keys_element)
    by (apply (bool_decide_eq_true_1 (_ ∈ _)); vm_compute; reflexivity).
  split; [exact H|].
  exact (proj1 (proj1 (shape_detection host_fromtimestamp host_repr_other
                         both_keys_element offline_world) H)).
Defined.

Example both_keys_record :
  fst (parse_element host_fromtimestamp host_repr_other
         (JDict both_keys_element) offline_world)
  = Ok (Some (JDict [
      (py "date", JStr (py "2023-11-14T22:13:20"));
      (py "content", JStr (py "from shareCommentary"));
      (py "url",
       JStr (py "https://www.linkedin.com/feed/update/urn:li:ugcPost:urn:li:share:7/"));
      (py "entity_urn", JStr (py "urn:li:ugcPost:urn:li:share:7")) ])).
Proof. vm_compute. reflexivity. Qed.


(** The list the normalizer returns there, and the list it returns when
    the middle element is a ugcPost with an identifier and no text: the
    ugcPosts rule drops it. *)
Example urn_only_in_a_payload :
  fst (parse_linkedin_posts host_fromtimestamp host_repr_other
         (JDict [ (py "elements",
                   JList [silent_element; JDict urn_only_element;
                          dated_element 1]) ])
         offline_world)
  = Ok [ JDict [ (py "date", JStr (py "2024-05-01T09:00:00"));
                 (py "content", JStr []);
                 (py "url",
                  JStr (py "https://www.linkedin.com/feed/update/urn:li:activity:3/"));
                 (py "entity_urn", JStr (py "urn:li:activity:3")) ];
         dated_record 1 ].
Proof. vm_compute. reflexivity. Qed.

Example ugc_post_without_text_in_a_payload :
  fst (parse_linkedin_posts host_fromtimestamp host_repr_other
         (JDict [ (py "elements",
                   JList [silent_element;
                          JDict [ (py "id", JStr (py "urn:li:share:9"));
                                  (py "specificContent", JDict []) ];
                          dated_element 1]) ])
         offline_world)
  = Ok [ dated_record 1 ].
Proof. vm_compute. reflexivity. Qed.

(** ** Videos *)

(** C4 fails as stated: asked for at most 5 videos, the fetcher returns
    the 6 of the response. *)
Lemma youtube_videos_exceed_max_results :
  fst (fetch_youtube_latest_videos host_json_error 5 six_items_world)
    = Ok six_videos
  /\ ~ (Z.of_nat (length six_videos) <= 5).
Proof.
  split; [vm_compute; reflexivity|].
  vm_compute. intros H. now apply H.
Qed.

(** Two items in the response, two videos in the list. *)
Lemma youtube_videos_one_per_item_witness :
  exists w',
    fetch_youtube_latest_videos host_json_error 2 two_items_world
    = (Ok (map video_record [1; 2]), w')
    /\ length (map video_record [1; 2]) = length (map video_item [1; 2]).
Proof.
  apply (youtube_videos_one_per_item host_json_error two_items_world
           (record_request (channels_request (py "UC123") (py "key"))
                           two_items_world)
           2 (JStr (py "UU123")) 200
           (JDict [ (py "items", JList (map video_item [1; 2])) ])
           (map video_item [1; 2]) (map video_record [1; 2])).
  - reflexivity.
  - reflexivity.
  - reflexivity.
  - reflexivity.
  - reflexivity.
  - reflexivity.
Defined.

(** ** Credentials and fatal errors *)

(** Nothing configured: null and the empty list, and the world is as it
    was. *)
Lemma missing_credentials_degrade_witness :
  env_missing (environ offline_world !! py "PORTFOLIO_GITHUB") = true
  /\ env_missing (environ offline_world !! py "youtube_api_key") = true
  /\ fetch_github_activity host_repr_other host_json_error offline_world
     = (Ok JNull, offline_world)
  /\ fetch_youtube_latest_videos host_json_error 5 offline_world
     = (Ok [], offline_world).
Proof.
  assert (Hg : env_missing (environ offline_world !! py "PORTFOLIO_GITHUB") = true)
    by (vm_compute; reflexivity).
  assert (Hy : env_missing (environ offline_world !! py "youtube_api_key") = true)
    by (vm_compute; reflexivity).
  split; [exact Hg|]. split; [exact Hy|]. split.
  - exact (proj1 (missing_credentials_degrade host_repr_other host_json_error
                    offline_world 5) Hg).
  - exact (proj2 (missing_credentials_degrade host_repr_other host_json_error
                    offline_world 5) (or_introl Hy)).
Defined.

(** The account identifier alone is configured: the code-activity fetcher
    goes to the network, the video fetcher still returns [[]]. *)
Example one_credential_of_two :
  let w := a_world [ (py "PORTFOLIO_GITHUB", py "someone") ] [] in
  fst (fetch_github_activity host_repr_other host_json_error w) = Ok JNull
  /\ length (sent (snd (fetch_github_activity host_repr_other host_json_error w)))
     = 1%nat
  /\ fetch_youtube_latest_videos host_json_error 5 w = (Ok [], w).
Proof.
  split; [vm_compute; reflexivity|]. split; [vm_compute; reflexivity|].
  reflexivity.
Qed.

(** Without the .env file the run raises and the old document stays. *)
Lemma fatal_errors_keep_document_witness :
  dotenv_file no_dotenv_world = None
  /\ exists w',
       host_main no_dotenv_world = (Raise FileNotFoundError, w')
       /\ data_file w' = Some old_document.
Proof.
  split; [reflexivity|].
  exact (proj1 (fatal_errors_keep_document host_fromtimestamp host_repr_other
                  host_timestamp_ms_before host_json_error no_dotenv_world)
               eq_refl).
Defined.

(** An .env file without [linkedin_access_token]. *)
Example no_token_run :
  fst (host_main offline_world) = Raise ValueError
  /\ data_file (snd (host_main offline_world)) = Some old_document.
Proof. split; vm_compute; reflexivity. Qed.

(** ** The raw debug artifact *)

(** Both endpoints fail: the empty result, and the old raw file stays. *)
Lemma linkedin_failure_keeps_raw_file_witness :
  environ failing_linkedin_world !! py "linkedin_access_token" = Some (py "secret")
  /\ exists w',
       fetch_linkedin_data host_timestamp_ms_before host_json_error
         failing_linkedin_world
       = (Ok (JDict [(py "elements", JList [])]), w')
       /\ raw_linkedin_file w' = Some old_raw.
Proof.
  assert (Henv : environ failing_linkedin_world !! py "linkedin_access_token"
                 = Some (py "secret")) by (vm_compute; reflexivity).
  split; [exact Henv|].
  apply (proj1 (linkedin_failure_keeps_raw_file host_timestamp_ms_before
                  host_json_error failing_linkedin_world (py "secret") Henv
                  ltac:(discriminate))).
  - vm_compute. reflexivity.
  - vm_compute. reflexivity.
Defined.

(** ** Whole runs *)

(** One ugcPost whose text is "Hello world this is a long post", created
    at 1700000000000 ms: the document has one post and the preview of its
    first five words. *)
Example scenario_1 :
  let run := host_main scenario_1_world in
  let field (k : string) :=
    match data_file (snd run) with
    | Some doc => py_get doc (py k) JNull
    | None => Raise KeyError
    end in
  fst run = Ok tt
  /\ raw_linkedin_file (snd run) = Some scenario_1_payload
  /\ (let! latest := field "latest_linkedin_post"%string in
      py_get latest (py "preview") empty_str)
     = Ok (JStr (py "Hello world this is a..."))
  /\ (let! posts := field "linkedin_posts"%string in py_len posts) = Ok 1%nat
  /\ field "github_activity"%string = Ok JNull
  /\ field "youtube_videos"%string = Ok (JList []).
Proof. repeat split; vm_compute; reflexivity. Qed.

(** * Further properties of the script *)

(** ** Stepping through a computation *)

Lemma bind_ok {A B} (m : M A) (k : A -> M B) w a w' :
  m w = (Ok a, w') -> bind m k w = k a w'.
Proof. intros H. unfold bind. now rewrite H. Qed.

Lemma bind_raise {A B} (m : M A) (k : A -> M B) w e w' :
  m w = (Raise e, w') -> bind m k w = (Raise e, w').
Proof. intros H. unfold bind. now rewrite H. Qed.

(** ** The preview of a short post *)

Lemma words_of_words s ws : words_of s ws -> Forall is_word ws.
Proof.
  induction 1 as [sp Hsp | sp w rest ws Hsp Hne Hw Hrest _ IH]; constructor;
    [split|]; assumption.
Qed.

Lemma words_of_join ws :
  Forall is_word ws -> words_of (join (py " ") ws) ws.
Proof.
  induction 1 as [|w ws [Hne Hw] Hws IH].
  - now apply words_none.
  - destruct ws as [|w' ws].
    + replace (join (py " ") [w]) with ([] ++ w ++ [])
        by (simpl; apply app_nil_r).
      apply (words_some [] w []); auto; try exact I; now apply words_none.
    + change (join (py " ") (w :: w' :: ws))
        with (w ++ py " " ++ join (py " ") (w' :: ws)).
      apply (words_some [] w); auto; try reflexivity.
      now apply words_of_space_cons.
Qed.

(** [" ".join] then [split()] gives the words back. *)
Lemma split_join ws : Forall is_word ws -> split (join (py " ") ws) = ws.
Proof. intros H. apply words_of_split, words_of_join, H. Qed.

Lemma split_words s : Forall is_word (split s).
Proof. apply (words_of_words s), split_words_of. Qed.

(** With fewer than five words in the first post, the preview is the
    content with every run of whitespace replaced by one space and the
    surrounding whitespace removed: it has the same words, and no
    ellipsis. *)
Theorem short_preview_keeps_words (p : NormalizedPost) (posts : list NormalizedPost) :
  (length (split (post_content p)) < 5)%nat ->
  exists preview,
    latest_post_preview (map post_json (p :: posts))
    = Ok (JDict [ (py "preview", JStr preview);
                  (py "url", JStr (post_url p));
                  (py "full_content", JStr (post_content p)) ])
    /\ preview = join (py " ") (split (post_content p))
    /\ split preview = split (post_content p).
Proof.
  intros Hshort. exists (join (py " ") (split (post_content p))).
  split; [|split; [reflexivity | apply split_join, split_words]].
  rewrite latest_post_preview_total. unfold preview_of.
  rewrite length_take_5, take_ge by lia.
  destruct (Nat.leb_spec 5 (length (split (post_content p)))); [lia|].
  now rewrite app_nil_r.
Qed.

(** A post whose words are apart by tabs, line feeds and double spaces. *)
Lemma short_preview_keeps_words_witness :
  exists preview,
    latest_post_preview
      (map post_json [mkPost [] (py "  one	two

three  ") [] []])
    = Ok (JDict [ (py "preview", JStr preview);
                  (py "url", JStr []);
                  (py "full_content", JStr (py "  one	two

three  ")) ])
    /\ preview = join (py " ") [py "one"; py "two"; py "three"]
    /\ split preview = [py "one"; py "two"; py "three"].
Proof.
  apply (short_preview_keeps_words (mkPost [] (py "  one	two

three  ") [] []) []).
  vm_compute. lia.
Defined.

(** ** The normalizer: shape, order and cost of its output *)

Lemma after_ticks_add k1 k2 w :
  after_ticks k2 (after_ticks k1 w) = after_ticks (k1 + k2) w.
Proof. unfold after_ticks. rewrite Nat.add_comm. symmetry. apply Nat.iter_add. Qed.

Lemma after_ticks_frame k w :
  sent (after_ticks k w) = sent w
  /\ data_file (after_ticks k w) = data_file w
  /\ raw_linkedin_file (after_ticks k w) = raw_linkedin_file w
  /\ environ (after_ticks k w) = environ w
  /\ ticks (after_ticks k w) = (ticks w + k)%nat.
Proof.
  unfold after_ticks. induction k as [|k (Hsent & Hdata & Hraw & Henv & Hticks)];
    simpl; [repeat split; lia|].
  rewrite Hsent, Hdata, Hraw, Henv, Hticks. repeat split. lia.
Qed.

Lemma ticks_at_most_ret {A} (a : A) : ticks_at_most 0 (ret a).
Proof. intros w. now exists 0%nat. Qed.

Lemma ticks_at_most_lift {A} (r : result A) : ticks_at_most 0 (lift r).
Proof. intros w. now exists 0%nat. Qed.

Lemma ticks_at_most_now : ticks_at_most 1 datetime_now.
Proof. intros w. exists 1%nat. split; [lia | reflexivity]. Qed.

Lemma ticks_at_most_le {A} (m : M A) n n' :
  (n <= n')%nat -> ticks_at_most n m -> ticks_at_most n' m.
Proof. intros Hle H w. destruct (H w) as (k & Hk & E). exists k. split; [lia | exact E]. Qed.

Lemma ticks_at_most_bind {A B} (m : M A) (k : A -> M B) n1 n2 :
  ticks_at_most n1 m -> (forall a, ticks_at_most n2 (k a)) ->
  ticks_at_most (n1 + n2) (bind m k).
Proof.
  intros Hm Hk w. unfold bind. destruct (Hm w) as (k1 & Hk1 & E1).
  destruct (m w) as [[a|e] w1]; simpl in *; subst w1.
  - destruct (Hk a (after_ticks k1 w)) as (k2 & Hk2 & E2).
    exists (k1 + k2)%nat. split; [lia|]. now rewrite E2, after_ticks_add.
  - exists k1. split; [lia | reflexivity].
Qed.

Lemma ticks_at_most_if {A} (b : bool) (m1 m2 : M A) n :
  ticks_at_most n m1 -> ticks_at_most n m2 ->
  ticks_at_most n (if b then m1 else m2).
Proof. destruct b; auto. Qed.

Lemma ticks_at_most_for_each {A B} (body : B -> A -> M B) (xs : list A) :
  (forall acc x, ticks_at_most 1 (body acc x)) ->
  forall acc, ticks_at_most (length xs) (for_each xs acc body).
Proof.
  intros Hbody. induction xs as [|x xs IH]; intros acc; simpl.
  - apply ticks_at_most_ret.
  - apply (ticks_at_most_bind _ _ 1); auto.
Qed.

Section NormalizerOutput.

Variable fromtimestamp : json -> result datetime.
Variable repr_other : json -> pystr.

Lemma element_date_ticks element :
  ticks_at_most 1 (element_date fromtimestamp element).
Proof.
  unfold element_date.
  apply (ticks_at_most_bind _ _ 0 1); [apply ticks_at_most_lift | intros created].
  apply (ticks_at_most_bind _ _ 0 1); [apply ticks_at_most_lift | intros t].
  apply ticks_at_most_if.
  - apply (ticks_at_most_bind _ _ 0 1); [apply ticks_at_most_lift | intros d].
    apply (ticks_at_most_le _ 0); [lia | apply ticks_at_most_ret].
  - apply (ticks_at_most_bind _ _ 1 0); [apply ticks_at_most_now | intros d].
    apply ticks_at_most_ret.
Qed.

Lemma parse_element_ticks element :
  ticks_at_most 1 (parse_element fromtimestamp repr_other element).
Proof.
  unfold parse_element, parse_ugc_post, parse_changelog.
  apply (ticks_at_most_bind _ _ 0 1); [apply ticks_at_most_lift | intros b].
  apply ticks_at_most_if;
    (apply (ticks_at_most_bind _ _ 0 1); [apply ticks_at_most_lift | intros x];
     apply (ticks_at_most_bind _ _ 0 1); [apply ticks_at_most_lift | intros c];
     apply (ticks_at_most_bind _ _ 1 0); [apply element_date_ticks | intros d];
     cbv zeta; apply ticks_at_most_if; apply ticks_at_most_ret).
Qed.

Lemma parse_linkedin_posts_ticks (linkedin_data : json) (w : world) :
  exists k,
    (k <= length (payload_elements linkedin_data))%nat
    /\ snd (parse_linkedin_posts fromtimestamp repr_other linkedin_data w)
       = after_ticks k w.
Proof.
  unfold parse_linkedin_posts, payload_elements, bind at 1, lift at 1.
  destruct (py_get linkedin_data (py "elements") (JList [])) as [elements|e];
    [|now exists 0%nat].
  destruct (truthy elements); cbn [negb]; [|now exists 0%nat].
  unfold bind at 1, lift at 1.
  destruct (py_iter elements) as [els|e]; [|now exists 0%nat].
  assert (H : ticks_at_most (length els + 0)
                (do posts <- for_each els [] (append_post fromtimestamp repr_other);;
                 ret (take 5 posts))).
  { apply ticks_at_most_bind; [|intros; apply ticks_at_most_ret].
    apply ticks_at_most_for_each. intros acc x. unfold append_post.
    apply (ticks_at_most_bind _ _ 1 0);
      [apply parse_element_ticks | intros; apply ticks_at_most_ret]. }
  destruct (H w) as (k & Hk & E). exists k. split; [lia | exact E].
Qed.

(** The normalizer sends no request and leaves the output document, the
    raw debug file and the process environment as they were; it reads the
    clock at most once per element of the payload. *)
Theorem normalizer_keeps_files_and_network (linkedin_data : json) (w : world) :
  let w' := snd (parse_linkedin_posts fromtimestamp repr_other linkedin_data w) in
  sent w' = sent w
  /\ data_file w' = data_file w
  /\ raw_linkedin_file w' = raw_linkedin_file w
  /\ environ w' = environ w
  /\ exists k, (k <= length (payload_elements linkedin_data))%nat
               /\ ticks w' = (ticks w + k)%nat.
Proof.
  intros w'. subst w'.
  destruct (parse_linkedin_posts_ticks linkedin_data w) as (k & Hk & ->).
  destruct (after_ticks_frame k w) as (Hsent & Hdata & Hraw & Henv & Hticks).
  repeat (split; [assumption|]). exists k. split; assumption.
Qed.

(** A record that [parse_element] emits has the four keys. *)
Lemma parse_element_record element w post w' :
  parse_element fromtimestamp repr_other element w = (Ok (Some post), w') ->
  is_post_record post.
Proof.
  unfold parse_element, parse_ugc_post, parse_changelog, bind, lift, ret.
  intros E. run_cases E; unfold is_post_record; eauto 10.
Qed.

Lemma for_each_append_post_records elements : forall acc w posts w',
  Forall is_post_record acc ->
  for_each elements acc (append_post fromtimestamp repr_other) w = (Ok posts, w') ->
  Forall is_post_record posts.
Proof.
  induction elements as [|element elements IH]; intros acc w posts w' Hacc E.
  - simpl in E. unfold ret in E. now inversion E; subst.
  - simpl in E. unfold bind at 1, append_post at 1, bind at 1 in E.
    destruct (parse_element _ _ element w) as [[post|e] w1] eqn:Ep;
      [|discriminate].
    unfold ret at 1 in E. apply (IH _ _ _ _) in E; [exact E|].
    apply Forall_app. split; [exact Hacc|].
    destruct post as [post|]; simpl; [|constructor].
    constructor; [|constructor]. eapply parse_element_record, Ep.
Qed.

Lemma parse_linkedin_posts_records linkedin_data w w' posts :
  parse_linkedin_posts fromtimestamp repr_other linkedin_data w = (Ok posts, w') ->
  (length posts <= 5)%nat /\ Forall is_post_record posts.
Proof.
  unfold parse_linkedin_posts, bind at 1, lift at 1.
  destruct (py_get linkedin_data (py "elements") (JList [])) as [elements|e];
    [|discriminate].
  destruct (truthy elements); cbn [negb].
  2: { unfold ret. intros E. inversion E; subst. split; [simpl; lia | constructor]. }
  unfold bind at 1, lift at 1.
  destruct (py_iter elements) as [els|e]; [|discriminate].
  unfold bind at 1.
  destruct (for_each els [] _ w) as [[all|e] w1] eqn:Eloop; [|discriminate].
  unfold ret. intros E. inversion E; subst. split.
  - rewrite length_take. lia.
  - apply Forall_take. eapply for_each_append_post_records, Eloop. constructor.
Qed.

(** Whatever the payload, a list that the normalizer returns has at most
    five records, and each record is a dict with exactly the keys "date",
    "content", "url" and "entity_urn", the date and the URL being strings. *)
Theorem normalized_posts_shape (linkedin_data : json) (w w' : world)
    (posts : list json) :
  parse_linkedin_posts fromtimestamp repr_other linkedin_data w = (Ok posts, w') ->
  (length posts <= 5)%nat /\ Forall is_post_record posts.
Proof. apply parse_linkedin_posts_records. Qed.

End NormalizerOutput.

Section NormalizerOrder.

Variable fromtimestamp : json -> result datetime.
Variable repr_other : json -> pystr.

Abbreviation yields := (element_yields fromtimestamp repr_other).

Lemma parse_linkedin_posts_yields d elements outcomes w :
  dict_lookup (py "elements") d = Some (JList elements) ->
  Forall2 (fun e r => yields e (Ok r)) elements outcomes ->
  parse_linkedin_posts fromtimestamp repr_other (JDict d) w
  = (Ok (take 5 (omap id outcomes)), w).
Proof.
  intros Hd H. rewrite (parse_linkedin_posts_list fromtimestamp repr_other d elements)
    by assumption.
  unfold bind.
  now rewrite (for_each_append_post_yields fromtimestamp repr_other
                 elements outcomes).
Qed.

(** When every element of the payload is parsed without error and without
    reading the clock, the normalizer returns the first five records
    emitted, in the order of the payload; an element that emits nothing
    does not count towards the five. *)
Theorem normalizer_keeps_first_five (d : list (pystr * json))
    (elements : list json) (outcomes : list (option json)) (w : world) :
  dict_lookup (py "elements") d = Some (JList elements) ->
  Forall2 (fun e r => yields e (Ok r)) elements outcomes ->
  parse_linkedin_posts fromtimestamp repr_other (JDict d) w
  = (Ok (take 5 (omap id outcomes)), w).
Proof. apply parse_linkedin_posts_yields. Qed.

(** The loop visits every element before the list is cut to five: an
    element on which [parse_element] raises makes the normalizer raise,
    wherever it stands in the payload and however many records precede
    it. *)
Theorem normalizer_aborts_on_bad_element (d : list (pystr * json))
    (before after : list json) (bad : json) (outcomes : list (option json))
    (e : exn) (w : world) :
  dict_lookup (py "elements") d = Some (JList (before ++ bad :: after)) ->
  Forall2 (fun e r => yields e (Ok r)) before outcomes ->
  yields bad (Raise e) ->
  parse_linkedin_posts fromtimestamp repr_other (JDict d) w = (Raise e, w).
Proof.
  intros Hd Hbefore Hbad.
  rewrite (parse_linkedin_posts_list fromtimestamp repr_other d
             (before ++ bad :: after)) by assumption.
  unfold bind at 1. rewrite for_each_app. unfold bind at 1.
  rewrite (for_each_append_post_yields fromtimestamp repr_other before outcomes)
    by assumption.
  simpl. unfold bind at 1, append_post at 1, bind at 1. now rewrite Hbad.
Qed.

(** A payload without elements (no "elements" key, or an empty list, null,
    zero, an empty string or an empty object under it) normalizes to the
    empty list, and the world is as it was. *)
Theorem normalizer_without_elements (d : list (pystr * json)) (w : world) :
  truthy (default (JList []) (dict_lookup (py "elements") d)) = false ->
  parse_linkedin_posts fromtimestamp repr_other (JDict d) w = (Ok [], w).
Proof.
  intros H. unfold parse_linkedin_posts, bind at 1, lift at 1. cbn [py_get].
  now rewrite H.
Qed.

(** The identifiers of a record.  A ugcPost with the string [i] as its
    "id" (the empty string when it has none) gets the entity identifier
    "urn:li:ugcPost:" followed by [i], and the feed URL built on it, or the
    empty URL when [i] is empty: without an "id" the record still carries
    the bare prefix as its identifier.  A change-log element with the
    non-empty string [u] as its "entityUrn" gets [u] and the feed URL built
    on [u]. *)
Theorem record_identifiers (d : list (pystr * json)) (w w' : world)
    (date : pystr) (content : json) (i : pystr) :
  element_date fromtimestamp (JDict d) w = (Ok date, w') ->
  (py "specificContent" ∈ dict_keys d ->
   ugc_content (JDict d) = Ok content -> truthy content = true ->
   default empty_str (dict_lookup (py "id") d) = JStr i ->
   parse_element fromtimestamp repr_other (JDict d) w
   = (Ok (Some (JDict [
        (py "date", JStr date);
        (py "content", content);
        (py "url",
         JStr (match i with
               | [] => []
               | _ => py "https://www.linkedin.com/feed/update/urn:li:ugcPost:"
                        ++ i ++ py "/"
               end));
        (py "entity_urn", JStr (py "urn:li:ugcPost:" ++ i)) ])), w'))
  /\ (py "specificContent" ∉ dict_keys d ->
      changelog_content (JDict d) = Ok content ->
      entity_urn_of d = JStr i -> i <> [] ->
      parse_element fromtimestamp repr_other (JDict d) w
      = (Ok (Some (JDict [
           (py "date", JStr date);
           (py "content", content);
           (py "url",
            JStr (py "https://www.linkedin.com/feed/update/" ++ i ++ py "/"));
           (py "entity_urn", JStr i) ])), w')).
Proof.
  intros Hd. split.
  - intros Hkey Hc Ht Hi.
    rewrite parse_element_dict, bool_decide_eq_true_2 by assumption.
    unfold parse_ugc_post, bind, lift. cbn [py_get]. rewrite Hi, Hc, Hd, Ht.
    destruct i; reflexivity.
  - intros Hkey Hc Hu Hne.
    rewrite parse_element_dict, bool_decide_eq_false_2 by assumption.
    unfold parse_changelog, bind, lift. cbn [py_get].
    unfold entity_urn_of in Hu. rewrite Hu, Hc, Hd.
    destruct i; [congruence|]. rewrite orb_true_r. reflexivity.
Qed.

End NormalizerOrder.

(** Seven elements of which six emit a record: the first five records,
    in order, and no clock reading. *)
Lemma normalizer_keeps_first_five_witness :
  parse_linkedin_posts host_fromtimestamp host_repr_other
    (JDict [ (py "elements", JList seven_elements) ]) offline_world
  = (Ok (map dated_record [1; 2; 3; 4; 5]), offline_world).
Proof.
  apply (normalizer_keeps_first_five host_fromtimestamp host_repr_other
           [ (py "elements", JList seven_elements) ]
           seven_elements seven_outcomes offline_world).
  - reflexivity.
  - repeat constructor; intros w; reflexivity.
Defined.

(** Five records, then a number where an element is expected. *)
Lemma normalizer_aborts_on_bad_element_witness :
  parse_linkedin_posts host_fromtimestamp host_repr_other
    (JDict [ (py "elements",
              JList (map dated_element [1; 2; 3; 4; 5] ++ [JInt 7])) ])
    offline_world
  = (Raise TypeError, offline_world).
Proof.
  apply (normalizer_aborts_on_bad_element host_fromtimestamp host_repr_other
           [ (py "elements",
              JList (map dated_element [1; 2; 3; 4; 5] ++ [JInt 7])) ]
           (map dated_element [1; 2; 3; 4; 5]) [] (JInt 7)
           (map (fun n => Some (dated_record n)) [1; 2; 3; 4; 5])
           TypeError offline_world).
  - reflexivity.
  - repeat constructor; intros w; reflexivity.
  - intros w. reflexivity.
Defined.

(** An empty object as payload. *)
Lemma normalizer_without_elements_witness :
  parse_linkedin_posts host_fromtimestamp host_repr_other (JDict []) offline_world
  = (Ok [], offline_world).
Proof.
  apply (normalizer_without_elements host_fromtimestamp host_repr_other
           [] offline_world).
  reflexivity.
Defined.

(** The seven-element payload again: five records of four keys each. *)
Lemma normalized_posts_shape_witness :
  (length (map dated_record [1; 2; 3; 4; 5]%Z) <= 5)%nat
  /\ Forall is_post_record (map dated_record [1; 2; 3; 4; 5]).
Proof.
  apply (normalized_posts_shape host_fromtimestamp host_repr_other
           (JDict [ (py "elements", JList seven_elements) ])
           offline_world offline_world).
  apply (parse_linkedin_posts_yields host_fromtimestamp host_repr_other
           [ (py "elements", JList seven_elements) ]
           seven_elements seven_outcomes offline_world).
  - reflexivity.
  - repeat constructor; intros w; reflexivity.
Defined.

(** A ugcPost without "id". *)
Lemma record_identifiers_witness :
  let d := [ (py "specificContent", JDict [
                (py "com.linkedin.ugc.ShareContent", JDict [
                   (py "shareCommentary", JDict [
                      (py "text", JStr (py "no id")) ]) ]) ]) ] in
  parse_element host_fromtimestamp host_repr_other (JDict d) offline_world
  = (Ok (Some (JDict [ (py "date", JStr (py "2024-05-01T09:00:00"));
                       (py "content", JStr (py "no id"));
                       (py "url", JStr []);
                       (py "entity_urn", JStr (py "urn:li:ugcPost:")) ])),
     tick offline_world).
Proof.
  intros d.
  apply (proj1 (record_identifiers host_fromtimestamp host_repr_other d
                  offline_world (tick offline_world)
                  (py "2024-05-01T09:00:00") (JStr (py "no id")) []
                  eq_refl)).
  - apply (bool_decide_eq_true_1 (_ ∈ _)). vm_compute. reflexivity.
  - reflexivity.
  - reflexivity.
  - reflexivity.
Defined.

(** ** The social-post fetcher: requests, artifact and result *)

(** Splits the goal on every test the run makes. *)
Ltac goal_cases :=
  repeat match goal with
         | |- context [match ?x with _ => _ end] =>
             lazymatch x with
             | context [match _ with _ => _ end] => fail
             | _ => destruct x eqn:?
             end
         end.

Lemma py_get_raises v k d e : py_get v k d = Raise e -> e = AttributeError.
Proof. destruct v; simpl; congruence. Qed.

Lemma py_len_raises v e : py_len v = Raise e -> e = TypeError.
Proof. destruct v; simpl; congruence. Qed.

Section LinkedinFetcher.

Variable timestamp_ms_before : Z -> datetime -> Z.
Variable json_error : exn.

Abbreviation fetch_linkedin_data' :=
  (fetch_linkedin_data timestamp_ms_before json_error).

(** With a token, [fetch_linkedin_data] is its [try] block. *)
Lemma fetch_linkedin_data_with_token w token :
  environ w !! py "linkedin_access_token" = Some token ->
  token <> [] ->
  fetch_linkedin_data' w =
  try_except
    (do response <- requests_get (ugc_posts_request token);;
     do response <-
       (if negb (fst response =? 200) then
          do now <- datetime_now;;
          requests_get (change_logs_request token
                          (timestamp_ms_before DAYS_BACK now))
        else ret response);;
     do _ <- raise_for_status response;;
     do data <- response_json json_error response;;
     do _ <- write_raw_linkedin_file data;;
     do elements <- lift (py_get data (py "elements") (JList []));;
     do _ <- lift (py_len elements);;
     ret data)
    is_request_exception
    (fun _ => ret (JDict [(py "elements", JList [])])) w.
Proof.
  intros Henv Htoken. unfold fetch_linkedin_data, bind at 1, getenv.
  rewrite Henv. destruct token; [congruence | reflexivity].
Qed.

(** The fetcher sends the ugcPosts request, then the memberChangeLogs
    request if and only if ugcPosts answered with a status other than 200,
    and nothing else: no retry, and no second request when ugcPosts could
    not be reached.  Both requests carry the token as a bearer
    authorization. *)
Theorem linkedin_requests_sent (w : world) (token : pystr) :
  environ w !! py "linkedin_access_token" = Some token ->
  token <> [] ->
  sent (snd (fetch_linkedin_data' w))
  = sent w ++ linkedin_requests timestamp_ms_before token w
  /\ Forall (fun r => (py "Authorization", py "Bearer " ++ token) ∈ headers r)
            (linkedin_requests timestamp_ms_before token w).
Proof.
  intros Henv Htoken. split.
  - rewrite (fetch_linkedin_data_with_token w token) by assumption.
    unfold linkedin_requests, try_except, bind, requests_get, raise_for_status,
      response_json, datetime_now, write_raw_linkedin_file, lift, ret, raise.
    destruct (network w (ugc_posts_request token)) as [|st1 b1] eqn:E1;
      cbn [fst snd network record_request tick clock ticks sent].
    + reflexivity.
    + destruct (st1 =? 200) eqn:E200; cbn [negb].
      * goal_cases; cbn; now rewrite ?app_nil_r.
      * cbn [network record_request tick clock ticks].
        goal_cases; cbn; now rewrite <- ?app_assoc.
  - unfold linkedin_requests.
    assert (H : forall r, headers r = linkedin_headers token ->
                (py "Authorization", py "Bearer " ++ token) ∈ headers r)
      by (intros r ->; left).
    goal_cases; repeat constructor; now apply H.
Qed.

(** When the response the fetcher ends up with has a status that
    [raise_for_status] accepts and a JSON body, that body is written to the
    raw debug file, whatever follows; the fetcher then returns the body,
    unless the body has no "elements" that can be counted (it is not an
    object, or its "elements" is a number, a boolean or null), in which
    case the [AttributeError] or [TypeError] escapes. *)
Theorem linkedin_answer_is_saved (w : world) (token : pystr) (st : Z) (data : json) :
  environ w !! py "linkedin_access_token" = Some token ->
  token <> [] ->
  linkedin_answer timestamp_ms_before token w = Response st (Some data) ->
  failed (Response st (Some data)) = false ->
  raw_linkedin_file (snd (fetch_linkedin_data' w)) = Some data
  /\ fst (fetch_linkedin_data' w)
     = (let! elements := py_get data (py "elements") (JList []) in
        let! _ := py_len elements in
        Ok data).
Proof.
  intros Henv Htoken Hanswer Hstatus.
  rewrite (fetch_linkedin_data_with_token w token) by assumption.
  unfold linkedin_answer in Hanswer. cbn [failed] in Hstatus.
  unfold try_except, bind, requests_get, raise_for_status,
    response_json, datetime_now, write_raw_linkedin_file, lift, ret, raise, rbind.
  destruct (network w (ugc_posts_request token)) as [|st1 b1] eqn:E1;
    [discriminate|].
  cbn [fst snd network record_request tick clock ticks].
  assert (Hsaved : forall w0,
    raw_linkedin_file
      (snd (let (r, w') :=
              match py_get data (py "elements") (JList []) with
              | Ok elements =>
                  match py_len elements with
                  | Ok _ => (Ok data, set_raw_linkedin_file data w0)
                  | Raise e => (Raise e, set_raw_linkedin_file data w0)
                  end
              | Raise e => (Raise e, set_raw_linkedin_file data w0)
              end in
            match r with
            | Ok a => (Ok a, w')
            | Raise e =>
                if is_request_exception e
                then (Ok (JDict [(py "elements", JList [])]), w')
                else (Raise e, w')
            end)) = Some data
    /\ fst (let (r, w') :=
              match py_get data (py "elements") (JList []) with
              | Ok elements =>
                  match py_len elements with
                  | Ok _ => (Ok data, set_raw_linkedin_file data w0)
                  | Raise e => (Raise e, set_raw_linkedin_file data w0)
                  end
              | Raise e => (Raise e, set_raw_linkedin_file data w0)
              end in
            match r with
            | Ok a => (Ok a, w')
            | Raise e =>
                if is_request_exception e
                then (Ok (JDict [(py "elements", JList [])]), w')
                else (Raise e, w')
            end)
       = match py_get data (py "elements") (JList []) with
         | Ok elements =>
             match py_len elements with
             | Ok _ => Ok data
             | Raise e => Raise e
             end
         | Raise e => Raise e
         end).
  { intros w0.
    destruct (py_get data (py "elements") (JList [])) as [elements|e] eqn:Eg.
    - destruct (py_len elements) as [n|e] eqn:El; [split; reflexivity|].
      apply py_len_raises in El. subst e. split; reflexivity.
    - apply py_get_raises in Eg. subst e. split; reflexivity. }
  destruct (st1 =? 200) eqn:E200; cbn [negb].
  - inversion Hanswer; subst. cbn [fst snd]. rewrite Hstatus. apply Hsaved.
  - cbn [network record_request tick clock ticks]. rewrite Hanswer.
    cbn [fst snd]. rewrite Hstatus. apply Hsaved.
Qed.

End LinkedinFetcher.

(** ** What the fetchers let out, and how much they send *)

Lemma contains_ret {A} (a : A) : contains_request_exceptions (ret a).
Proof. intros w e w' E. discriminate. Qed.

Lemma contains_getenv k : contains_request_exceptions (getenv k).
Proof. intros w e w' E. discriminate. Qed.

Lemma contains_raise {A} e :
  is_request_exception e = false -> contains_request_exceptions (@raise A e).
Proof. intros H w e' w' E. inversion E; subst. exact H. Qed.

Lemma contains_bind {A B} (m : M A) (k : A -> M B) :
  contains_request_exceptions m ->
  (forall a, contains_request_exceptions (k a)) ->
  contains_request_exceptions (bind m k).
Proof.
  intros Hm Hk w e w' E. unfold bind in E.
  destruct (m w) as [[a|e1] w1] eqn:Em.
  - eapply Hk, E.
  - inversion E; subst. eapply Hm, Em.
Qed.

Lemma contains_if {A} (b : bool) (m1 m2 : M A) :
  contains_request_exceptions m1 -> contains_request_exceptions m2 ->
  contains_request_exceptions (if b then m1 else m2).
Proof. destruct b; auto. Qed.

(** A handler for [RequestException] that does not raise lets none out,
    whatever its [try] block does. *)
Lemma contains_try_except {A} (m : M A) (h : exn -> M A) :
  (forall e, contains_request_exceptions (h e)) ->
  contains_request_exceptions (try_except m is_request_exception h).
Proof.
  intros Hh w e w' E. unfold try_except in E.
  destruct (m w) as [[a|e1] w1]; [discriminate|].
  destruct (is_request_exception e1) eqn:E1.
  - eapply Hh, E.
  - now inversion E; subst.
Qed.

Lemma sends_nothing {A} (m : M A) :
  (forall w, sent (snd (m w)) = sent w) -> sends_at_most 0 m.
Proof. intros H w. exists []. split; [reflexivity|]. now rewrite H, app_nil_r. Qed.

Lemma sends_at_most_ret {A} (a : A) : sends_at_most 0 (ret a).
Proof. now apply sends_nothing. Qed.

Lemma sends_at_most_raise {A} e : sends_at_most 0 (@raise A e).
Proof. now apply sends_nothing. Qed.

Lemma sends_at_most_lift {A} (r : result A) : sends_at_most 0 (lift r).
Proof. now apply sends_nothing. Qed.

Lemma sends_at_most_getenv k : sends_at_most 0 (getenv k).
Proof. now apply sends_nothing. Qed.

Lemma sends_at_most_getenv_default k d : sends_at_most 0 (getenv_default k d).
Proof. now apply sends_nothing. Qed.

Lemma sends_at_most_now : sends_at_most 0 datetime_now.
Proof. now apply sends_nothing. Qed.

Lemma sends_at_most_raise_for_status resp : sends_at_most 0 (raise_for_status resp).
Proof. apply sends_nothing. intros w. unfold raise_for_status. now destruct (_ && _). Qed.

Lemma sends_at_most_response_json json_error resp :
  sends_at_most 0 (response_json json_error resp).
Proof. apply sends_nothing. intros w. unfold response_json. now destruct (snd resp). Qed.

Lemma sends_at_most_write_raw v : sends_at_most 0 (write_raw_linkedin_file v).
Proof. now apply sends_nothing. Qed.

Lemma sends_at_most_write_data v : sends_at_most 0 (write_data_file v).
Proof. now apply sends_nothing. Qed.

Lemma sends_at_most_load_env : sends_at_most 0 load_env.
Proof. apply sends_nothing. intros w. unfold load_env. now destruct (dotenv_file w). Qed.

Lemma sends_at_most_bind {A B} (m : M A) (k : A -> M B) n1 n2 :
  sends_at_most n1 m -> (forall a, sends_at_most n2 (k a)) ->
  sends_at_most (n1 + n2) (bind m k).
Proof.
  intros Hm Hk w. unfold bind. destruct (Hm w) as (reqs1 & Hlen1 & E1).
  destruct (m w) as [[a|e] w1]; simpl in *.
  - destruct (Hk a w1) as (reqs2 & Hlen2 & E2).
    exists (reqs1 ++ reqs2). rewrite length_app, E2, E1, app_assoc.
    split; [lia | reflexivity].
  - exists reqs1. split; [lia | exact E1].
Qed.

Lemma sends_at_most_try_except {A} (m : M A) catches (h : exn -> M A) n :
  sends_at_most n m -> (forall e, sends_at_most 0 (h e)) ->
  sends_at_most n (try_except m catches h).
Proof.
  intros Hm Hh w. unfold try_except. destruct (Hm w) as (reqs1 & Hlen1 & E1).
  destruct (m w) as [[a|e] w1]; simpl in *.
  - exists reqs1. split; [lia | exact E1].
  - destruct (catches e); simpl.
    + destruct (Hh e w1) as (reqs2 & Hlen2 & E2).
      destruct reqs2; [|simpl in Hlen2; lia].
      exists reqs1. rewrite E2, app_nil_r. split; [lia | exact E1].
    + exists reqs1. split; [lia | exact E1].
Qed.

Lemma sends_at_most_if {A} (b : bool) (m1 m2 : M A) n :
  sends_at_most n m1 -> sends_at_most n m2 ->
  sends_at_most n (if b then m1 else m2).
Proof. destruct b; auto. Qed.

Lemma sends_at_most_for_each {A B} (body : B -> A -> M B) (xs : list A) :
  (forall acc x, sends_at_most 0 (body acc x)) ->
  forall acc, sends_at_most 0 (for_each xs acc body).
Proof.
  intros Hbody. induction xs as [|x xs IH]; intros acc; simpl.
  - apply sends_at_most_ret.
  - apply (sends_at_most_bind _ _ 0 0); auto.
Qed.

Lemma sends_to_quiet {A} (eps : list endpoint) (m : M A) :
  sends_at_most 0 m -> sends_to eps m.
Proof.
  intros H w. destruct (H w) as (reqs & Hlen & E).
  destruct reqs; [|simpl in Hlen; lia].
  exists [], []. split; [exact E|]. split; [constructor | apply sublist_nil_l].
Qed.

Lemma sends_to_requests_get r e :
  endpoint_of r = Some e -> sends_to [e] (requests_get r).
Proof.
  intros He w. exists [r], [e]. split.
  - unfold requests_get. now destruct (network w r).
  - split; [repeat constructor; exact He | reflexivity].
Qed.

Lemma sends_to_bind {A B} (m : M A) (k : A -> M B) l1 l2 :
  sends_to l1 m -> (forall a, sends_to l2 (k a)) ->
  sends_to (l1 ++ l2) (bind m k).
Proof.
  intros Hm Hk w. unfold bind. destruct (Hm w) as (reqs1 & es1 & E1 & F1 & S1).
  destruct (m w) as [[a|e] w1]; simpl in *.
  - destruct (Hk a w1) as (reqs2 & es2 & E2 & F2 & S2).
    exists (reqs1 ++ reqs2), (es1 ++ es2). rewrite E2, E1, app_assoc.
    split; [reflexivity|]. split; [now apply Forall2_app | now apply sublist_app].
  - exists reqs1, es1. split; [exact E1|].
    split; [exact F1 | now apply sublist_inserts_r].
Qed.

Lemma sends_to_bind_l {A B} (m : M A) (k : A -> M B) l :
  sends_at_most 0 m -> (forall a, sends_to l (k a)) -> sends_to l (bind m k).
Proof.
  intros Hm Hk. apply (sends_to_bind m k [] l); [now apply sends_to_quiet | exact Hk].
Qed.

Lemma sends_to_bind_r {A B} (m : M A) (k : A -> M B) l :
  sends_to l m -> (forall a, sends_at_most 0 (k a)) -> sends_to l (bind m k).
Proof.
  intros Hm Hk. rewrite <- (app_nil_r l).
  apply sends_to_bind; [exact Hm | intros a; now apply sends_to_quiet].
Qed.

Lemma sends_to_try_except {A} (m : M A) catches (h : exn -> M A) l :
  sends_to l m -> (forall e, sends_at_most 0 (h e)) ->
  sends_to l (try_except m catches h).
Proof.
  intros Hm Hh w. unfold try_except. destruct (Hm w) as (reqs1 & es1 & E1 & F1 & S1).
  destruct (m w) as [[a|e] w1]; simpl in *.
  - exists reqs1, es1. auto.
  - destruct (catches e); simpl.
    + destruct (Hh e w1) as (reqs2 & Hlen2 & E2).
      destruct reqs2; [|simpl in Hlen2; lia].
      exists reqs1, es1. rewrite E2, app_nil_r. auto.
    + exists reqs1, es1. auto.
Qed.

Lemma sends_to_if {A} (b : bool) (m1 m2 : M A) l :
  sends_to l m1 -> sends_to l m2 -> sends_to l (if b then m1 else m2).
Proof. destruct b; auto. Qed.

(** Requests that go to distinct endpoints are distinct. *)
Lemma endpoints_NoDup (reqs : list request) (es : list endpoint) :
  Forall2 (fun r e => endpoint_of r = Some e) reqs es -> NoDup es -> NoDup reqs.
Proof.
  induction 1 as [|r e reqs es He F IH]; intros Hes; [constructor|].
  apply NoDup_cons in Hes as [Hnotin Hes]. constructor; [|now apply IH].
  intros Hin. apply Hnotin.
  apply list_elem_of_lookup in Hin as [i Hi].
  destruct (Forall2_lookup_l _ _ _ _ _ F Hi) as (e' & He' & Hr).
  rewrite He in Hr. inversion Hr; subst. apply list_elem_of_lookup. eauto.
Qed.

Create HintDb requests.
#[local] Hint Resolve sends_at_most_ret sends_at_most_raise sends_at_most_lift
  sends_at_most_getenv sends_at_most_getenv_default sends_at_most_now
  sends_at_most_raise_for_status sends_at_most_response_json
  sends_at_most_write_raw sends_at_most_write_data sends_at_most_load_env
  : requests.

(** Steps that send nothing. *)
Ltac quiet :=
  repeat first
    [ solve [auto with requests]
    | apply (sends_at_most_bind _ _ 0 0); [|intros ?]
    | apply sends_at_most_if
    | apply sends_at_most_for_each; intros ? ?
    | apply sends_at_most_try_except; [|intros ?]
    | progress cbv zeta ].

Section Fetchers.

Variable fromtimestamp : json -> result datetime.
Variable repr_other : json -> pystr.
Variable timestamp_ms_before : Z -> datetime -> Z.
Variable json_error : exn.

Lemma contains_fetch_linkedin_data :
  contains_request_exceptions (fetch_linkedin_data timestamp_ms_before json_error).
Proof.
  unfold fetch_linkedin_data.
  apply contains_bind; [apply contains_getenv | intros token].
  apply contains_if; [now apply contains_raise|].
  apply contains_try_except. intros e. apply contains_ret.
Qed.

Lemma contains_fetch_github_activity :
  contains_request_exceptions (fetch_github_activity repr_other json_error).
Proof.
  unfold fetch_github_activity.
  apply contains_bind; [apply contains_getenv | intros token].
  apply contains_bind; [apply contains_getenv | intros username].
  apply contains_if; [apply contains_ret|].
  apply contains_try_except. intros e. apply contains_ret.
Qed.

Lemma contains_fetch_youtube_uploads_playlist :
  contains_request_exceptions (fetch_youtube_uploads_playlist json_error).
Proof.
  unfold fetch_youtube_uploads_playlist.
  apply contains_bind; [apply contains_getenv | intros api_key].
  apply contains_bind; [apply contains_getenv | intros channel_id].
  apply contains_if; [apply contains_ret|].
  apply contains_try_except. intros e. apply contains_ret.
Qed.

Lemma contains_fetch_youtube_latest_videos max_results :
  contains_request_exceptions (fetch_youtube_latest_videos json_error max_results).
Proof.
  unfold fetch_youtube_latest_videos.
  apply contains_bind;
    [apply contains_fetch_youtube_uploads_playlist | intros playlist].
  apply contains_if; [apply contains_ret|].
  apply contains_bind; [apply contains_getenv | intros api_key].
  apply contains_try_except. intros e. apply contains_ret.
Qed.

(** No fetcher lets a [RequestException] out: a failed connection, a
    timeout or a 4xx or 5xx status never aborts the run.  The exceptions
    that do come out of a fetcher are of other classes ([ValueError] for
    the missing token, [KeyError], [TypeError] or [AttributeError] for an
    answer of an unexpected shape). *)
Theorem fetchers_contain_request_exceptions (w w' : world) (e : exn)
    (max_results : Z) :
  fetch_linkedin_data timestamp_ms_before json_error w = (Raise e, w')
  \/ fetch_github_activity repr_other json_error w = (Raise e, w')
  \/ fetch_youtube_uploads_playlist json_error w = (Raise e, w')
  \/ fetch_youtube_latest_videos json_error max_results w = (Raise e, w') ->
  e <> RequestException.
Proof.
  intros H.
  assert (He : is_request_exception e = false).
  { destruct H as [H | [H | [H | H]]].
    - eapply contains_fetch_linkedin_data, H.
    - eapply contains_fetch_github_activity, H.
    - eapply contains_fetch_youtube_uploads_playlist, H.
    - eapply contains_fetch_youtube_latest_videos, H. }
  intros ->. discriminate.
Qed.

Lemma sends_parse_linkedin_posts data :
  sends_at_most 0 (parse_linkedin_posts fromtimestamp repr_other data).
Proof.
  unfold parse_linkedin_posts, append_post, parse_element, parse_ugc_post,
    parse_changelog, element_date.
  quiet.
Qed.

Lemma sends_generate_data_json posts github_activity youtube_videos :
  sends_at_most 0 (generate_data_json posts github_activity youtube_videos).
Proof. unfold generate_data_json. quiet. Qed.

Lemma sends_to_fetch_linkedin_data :
  sends_to [UgcPosts; MemberChangeLogs]
    (fetch_linkedin_data timestamp_ms_before json_error).
Proof.
  unfold fetch_linkedin_data.
  apply sends_to_bind_l; [quiet | intros token].
  apply sends_to_if; [apply sends_to_quiet; quiet|].
  cbv zeta. apply sends_to_try_except; [|intros; quiet].
  apply (sends_to_bind _ _ [UgcPosts] [MemberChangeLogs]);
    [now apply sends_to_requests_get | intros r1].
  apply sends_to_bind_r; [|intros r2; quiet].
  apply sends_to_if.
  - apply sends_to_bind_l;
      [quiet | intros now; now apply sends_to_requests_get].
  - apply sends_to_quiet. quiet.
Qed.

Lemma sends_to_fetch_github_activity :
  sends_to [GithubRepos; GithubCommits]
    (fetch_github_activity repr_other json_error).
Proof.
  unfold fetch_github_activity.
  apply sends_to_bind_l; [quiet | intros token].
  apply sends_to_bind_l; [quiet | intros username].
  apply sends_to_if; [apply sends_to_quiet; quiet|].
  cbv zeta. apply sends_to_try_except; [|intros; quiet].
  apply (sends_to_bind _ _ [GithubRepos] [GithubCommits]);
    [now apply sends_to_requests_get | intros r1].
  apply sends_to_bind_l; [quiet | intros _].
  apply sends_to_bind_l; [quiet | intros repos].
  apply sends_to_bind_l; [quiet | intros some].
  apply sends_to_if; [|apply sends_to_quiet; quiet].
  apply sends_to_bind_l; [quiet | intros latest_repo].
  apply sends_to_bind_l; [quiet | intros repo_full_name].
  apply sends_to_bind_l; [quiet | intros repo_name].
  apply sends_to_bind_l; [quiet | intros pushed_at].
  cbv zeta. apply sends_to_bind_r; [|intros; quiet].
  apply sends_to_try_except; [|intros; quiet].
  apply sends_to_bind_r; [now apply sends_to_requests_get | intros r2].
  quiet.
Qed.

Lemma sends_to_fetch_youtube_uploads_playlist :
  sends_to [YoutubeChannels] (fetch_youtube_uploads_playlist json_error).
Proof.
  unfold fetch_youtube_uploads_playlist.
  apply sends_to_bind_l; [quiet | intros api_key].
  apply sends_to_bind_l; [quiet | intros channel_id].
  apply sends_to_if; [apply sends_to_quiet; quiet|].
  cbv zeta. apply sends_to_try_except; [|intros; quiet].
  apply sends_to_bind_r; [now apply sends_to_requests_get | intros r1].
  quiet.
Qed.

Lemma sends_to_fetch_youtube_latest_videos max_results :
  sends_to [YoutubeChannels; YoutubePlaylistItems]
    (fetch_youtube_latest_videos json_error max_results).
Proof.
  unfold fetch_youtube_latest_videos.
  apply (sends_to_bind _ _ [YoutubeChannels] [YoutubePlaylistItems]);
    [apply sends_to_fetch_youtube_uploads_playlist | intros playlist].
  apply sends_to_if; [apply sends_to_quiet; quiet|].
  apply sends_to_bind_l; [quiet | intros api_key].
  apply sends_to_try_except; [|intros; quiet].
  apply sends_to_bind_r; [now apply sends_to_requests_get | intros r1].
  unfold append_video. quiet.
Qed.

Lemma sends_to_main :
  sends_to ENDPOINTS (main fromtimestamp repr_other timestamp_ms_before json_error).
Proof.
  unfold main. apply sends_to_try_except; [|intros; quiet].
  apply sends_to_bind_l; [quiet | intros _].
  apply (sends_to_bind _ _ [UgcPosts; MemberChangeLogs]
           [GithubRepos; GithubCommits; YoutubeChannels; YoutubePlaylistItems]);
    [apply sends_to_fetch_linkedin_data | intros data].
  apply sends_to_bind_l; [apply sends_parse_linkedin_posts | intros posts].
  apply (sends_to_bind _ _ [GithubRepos; GithubCommits]
           [YoutubeChannels; YoutubePlaylistItems]);
    [apply sends_to_fetch_github_activity | intros activity].
  apply sends_to_bind_r;
    [apply sends_to_fetch_youtube_latest_videos | intros videos].
  apply sends_generate_data_json.
Qed.

(** A run sends at most one request to each of the six endpoints, and in
    their order: ugcPosts, memberChangeLogs, the repository listing, the
    commits, the channel, the playlist items.  So it sends at most six
    requests, at most two per source, and none twice: a request that
    failed is not sent again. *)
Theorem main_sends_at_most_six_requests (w : world) :
  exists reqs endpoints,
    sent (snd (main fromtimestamp repr_other timestamp_ms_before json_error w))
    = sent w ++ reqs
    /\ Forall2 (fun r e => endpoint_of r = Some e) reqs endpoints
    /\ sublist endpoints ENDPOINTS
    /\ (length reqs <= 6)%nat
    /\ NoDup reqs.
Proof.
  destruct (sends_to_main w) as (reqs & es & E & F & S).
  exists reqs, es. split; [exact E|]. split; [exact F|]. split; [exact S|].
  assert (Hes : NoDup es).
  { apply (sublist_NoDup es ENDPOINTS); [|exact S].
    unfold ENDPOINTS. rewrite !NoDup_cons, !not_elem_of_cons.
    repeat split; (discriminate || apply not_elem_of_nil || constructor). }
  split.
  - rewrite (Forall2_length _ _ _ F). apply (sublist_length _ _ S).
  - now apply (endpoints_NoDup reqs es).
Qed.

End Fetchers.

(** ** The code-activity fetcher *)

Lemma rmap_Forall {A B} (f : A -> result B) (P : B -> Prop) (xs : list A) :
  (forall x y, f x = Ok y -> P y) ->
  forall ys, rmap f xs = Ok ys -> Forall P ys.
Proof.
  intros Hf. induction xs as [|x xs IH]; simpl; intros ys E.
  - inversion E. constructor.
  - destruct (f x) as [y|] eqn:Ey; [|discriminate]. simpl in E.
    destruct (rmap f xs) as [ys'|]; [|discriminate]. simpl in E.
    inversion E; subst. constructor; eauto.
Qed.

Lemma commit_summary_record commit c :
  commit_summary commit = Ok c -> is_commit_record c.
Proof.
  unfold commit_summary, rbind. intros E. run_cases E.
  unfold is_commit_record. eauto.
Qed.

Lemma py_slice_iter_length n v v' l :
  py_slice_to n v = Ok v' -> py_iter v' = Ok l -> (length l <= n)%nat.
Proof.
  destruct v; simpl; intros E; inversion E; subst; simpl; intros E';
    inversion E'; subst; rewrite ?length_map, length_take; lia.
Qed.

(** The first line of a text has no line feed, and the text is that line
    alone or that line, a line feed and the rest. *)
Lemma first_line_spec (m : pystr) :
  (10%N ∉ first_line m)
  /\ exists rest, m = first_line m ++ rest
                  /\ (rest = [] \/ exists r, rest = 10%N :: r).
Proof.
  induction m as [|c m (IHnot & rest & IHeq & IHrest)]; simpl.
  - split; [apply not_elem_of_nil|]. exists []. split; [reflexivity | now left].
  - destruct (N.eqb_spec c 10) as [->|Hc].
    + split; [apply not_elem_of_nil|]. exists (10%N :: m).
      split; [reflexivity | right; eauto].
    + split.
      * rewrite elem_of_cons. intros [E|E]; [congruence | contradiction].
      * exists rest. split; [simpl; congruence | exact IHrest].
Qed.

(** A commit with the string [sha] as its "sha" and the string [message]
    as its "commit.message" (the empty string standing for an absent one)
    is summarised by the first seven characters of [sha], or all of it when
    it is shorter, and the first line of [message], which has no line feed
    in it and is followed in [message] by nothing or by a line feed. *)
Theorem commit_summary_abbreviates (d detail : list (pystr * json))
    (sha message : pystr) :
  default empty_str (dict_lookup (py "sha") d) = JStr sha ->
  default empty_dict (dict_lookup (py "commit") d) = JDict detail ->
  default empty_str (dict_lookup (py "message") detail) = JStr message ->
  commit_summary (JDict d)
  = Ok (JDict [ (py "sha", JStr (take 7 sha));
                (py "message", JStr (first_line message)) ])
  /\ (length (take 7 sha) <= 7)%nat
  /\ (10%N ∉ first_line message)
  /\ exists rest, message = first_line message ++ rest
                  /\ (rest = [] \/ exists r, rest = 10%N :: r).
Proof.
  intros Hsha Hdetail Hmessage. split; [|split].
  - unfold commit_summary, rbind. cbn [py_get]. rewrite Hsha. cbn [py_slice_to].
    rewrite Hdetail. cbn [py_get]. rewrite Hmessage. reflexivity.
  - rewrite length_take. lia.
  - apply first_line_spec.
Qed.

Lemma env_blind_ret {A} (a : A) : env_blind (ret a).
Proof. intros e w. reflexivity. Qed.

Lemma env_blind_lift {A} (r : result A) : env_blind (lift r).
Proof. intros e w. reflexivity. Qed.

Lemma env_blind_raise {A} x : env_blind (@raise A x).
Proof. intros e w. reflexivity. Qed.

Lemma env_blind_requests_get r : env_blind (requests_get r).
Proof.
  intros e w. unfold requests_get. cbn [network set_environ].
  destruct (network w r); reflexivity.
Qed.

Lemma env_blind_raise_for_status resp : env_blind (raise_for_status resp).
Proof. intros e w. unfold raise_for_status. destruct (_ && _); reflexivity. Qed.

Lemma env_blind_response_json json_error resp :
  env_blind (response_json json_error resp).
Proof. intros e w. unfold response_json. destruct (snd resp); reflexivity. Qed.

Lemma env_blind_bind {A B} (m : M A) (k : A -> M B) :
  env_blind m -> (forall a, env_blind (k a)) -> env_blind (bind m k).
Proof.
  intros Hm Hk e w. unfold bind. rewrite Hm.
  destruct (m w) as [[a|x] w1]; simpl; [apply Hk | reflexivity].
Qed.

Lemma env_blind_try_except {A} (m : M A) catches (h : exn -> M A) :
  env_blind m -> (forall x, env_blind (h x)) ->
  env_blind (try_except m catches h).
Proof.
  intros Hm Hh e w. unfold try_except. rewrite Hm.
  destruct (m w) as [[a|x] w1]; simpl; [reflexivity|].
  destruct (catches x); [apply Hh | reflexivity].
Qed.

Lemma env_blind_if {A} (b : bool) (m1 m2 : M A) :
  env_blind m1 -> env_blind m2 -> env_blind (if b then m1 else m2).
Proof. destruct b; auto. Qed.

Create HintDb blind.
#[local] Hint Resolve env_blind_ret env_blind_lift env_blind_raise
  env_blind_requests_get env_blind_raise_for_status env_blind_response_json
  : blind.

Ltac blind :=
  repeat first
    [ solve [auto with blind]
    | apply env_blind_bind; [|intros ?]
    | apply env_blind_try_except; [|intros ?]
    | apply env_blind_if
    | progress cbv zeta ].

Lemma record_request_with_sent r reqs w :
  record_request r (with_sent reqs w) = with_sent (reqs ++ [r]) w.
Proof. unfold record_request, with_sent. cbn. now rewrite <- app_assoc. Qed.

Lemma record_request_alone r w : record_request r w = with_sent [r] w.
Proof. reflexivity. Qed.

Section CodeActivity.

Variable repr_other : json -> pystr.
Variable json_error : exn.

Abbreviation fetch_github_activity' := (fetch_github_activity repr_other json_error).

(** The commits step of lines 228-241, for any request: it never raises,
    and gives at most three summaries, none when the request fails. *)
Lemma commits_block (r : request) (w : world) :
  exists commits,
    try_except
      (do commits_response <- requests_get r;;
       do _ <- raise_for_status commits_response;;
       do commits_data <- response_json json_error commits_response;;
       do first3 <- lift (py_slice_to 3 commits_data);;
       do commits <- lift (py_iter first3);;
       lift (rmap commit_summary commits))
      any_exception
      (fun _ => ret []) w
    = (Ok commits, record_request r w)
    /\ (length commits <= 3)%nat
    /\ Forall is_commit_record commits
    /\ (failed (network w r) = true -> commits = []).
Proof.
  unfold try_except, bind, requests_get, raise_for_status, response_json,
    lift, ret, raise, any_exception.
  destruct (network w r) as [|st b]; cbn [fst snd failed].
  { exists []. repeat split; auto. }
  destruct ((400 <=? st) && (st <? 600)).
  { exists []. repeat split; auto. }
  destruct b as [data|]; [|exists []; repeat split; auto; discriminate].
  destruct (py_slice_to 3 data) as [first3|] eqn:Eslice;
    [|exists []; repeat split; auto; discriminate].
  destruct (py_iter first3) as [commits|] eqn:Eiter;
    [|exists []; repeat split; auto; discriminate].
  destruct (rmap commit_summary commits) as [summaries|] eqn:Emap;
    [|exists []; repeat split; auto; discriminate].
  exists summaries. split; [reflexivity|]. split; [|split].
  - rewrite (rmap_length _ _ _ Emap). eapply py_slice_iter_length; eassumption.
  - eapply rmap_Forall; [|exact Emap]. apply commit_summary_record.
  - discriminate.
Qed.

Lemma fetch_github_activity_without_username w :
  env_missing (environ w !! py "PORTFOLIO_GITHUB") = true ->
  fetch_github_activity' w = (Ok JNull, w).
Proof.
  intros H. unfold fetch_github_activity, bind at 1, getenv, bind at 1.
  now rewrite H.
Qed.

(** With an account name, [fetch_github_activity] is its [try] block. *)
Lemma fetch_github_activity_with_username w username :
  environ w !! py "PORTFOLIO_GITHUB" = Some username ->
  username <> [] ->
  fetch_github_activity' w = github_try_block repr_other json_error username w.
Proof.
  intros Henv Hname.
  unfold fetch_github_activity, bind at 1, getenv, bind at 1.
  rewrite Henv. destruct username; [congruence | reflexivity].
Qed.

(** When the listing request fails, or is answered with an empty list (or
    any other falsy JSON value), the fetcher returns [None] after that one
    request: the commits of no repository are asked for. *)
Theorem github_without_repository (w : world) (username : pystr) :
  environ w !! py "PORTFOLIO_GITHUB" = Some username ->
  username <> [] ->
  failed (network w (github_repos_request username)) = true
  \/ (exists st repos,
        network w (github_repos_request username) = Response st (Some repos)
        /\ failed (Response st (Some repos)) = false
        /\ truthy repos = false) ->
  fetch_github_activity' w
  = (Ok JNull, with_sent [github_repos_request username] w).
Proof.
  intros Henv Hname H.
  rewrite (fetch_github_activity_with_username w username) by assumption.
  unfold github_try_block, try_except, bind at 1, requests_get.
  destruct H as [H | (st & repos & Hnet & Hok & Hfalsy)].
  - destruct (network w (github_repos_request username)) as [|st b];
      [reflexivity|].
    unfold bind at 1, raise_for_status. cbn [fst failed] in *.
    rewrite H. reflexivity.
  - rewrite Hnet. cbn [failed] in Hok.
    unfold bind at 1, raise_for_status. cbn [fst]. rewrite Hok.
    unfold ret at 1, bind at 1, response_json. cbn [snd]. unfold ret at 1.
    unfold bind at 1. rewrite Hfalsy. unfold ret at 1. reflexivity.
Qed.

(** When the listing is answered with a non-empty list whose first entry
    is an object, the fetcher returns a summary of that repository and
    does not raise, whatever happens to the commits request: the summary
    has the keys "repo", "repo_name", "commits" and "pushed_at"; its commit
    list has at most three entries, each with the keys "sha" and "message",
    and is empty when the commits request fails.  Two requests are sent. *)
Theorem github_summary_survives_commits (w : world) (username : pystr)
    (st : Z) (repo : list (pystr * json)) (others : list json) :
  environ w !! py "PORTFOLIO_GITHUB" = Some username ->
  username <> [] ->
  network w (github_repos_request username)
    = Response st (Some (JList (JDict repo :: others))) ->
  failed (Response st (Some (JList (JDict repo :: others)))) = false ->
  let full_name := default empty_str (dict_lookup (py "full_name") repo) in
  exists commits,
    fetch_github_activity' w
    = (Ok (JDict [ (py "repo", full_name);
                   (py "repo_name", default empty_str (dict_lookup (py "name") repo));
                   (py "commits", JList commits);
                   (py "pushed_at",
                    default empty_str (dict_lookup (py "pushed_at") repo)) ]),
       with_sent [ github_repos_request username;
                   github_commits_request repr_other full_name ] w)
    /\ (length commits <= 3)%nat
    /\ Forall is_commit_record commits
    /\ (failed (network w (github_commits_request repr_other full_name)) = true ->
        commits = []).
Proof.
  intros Henv Hname Hnet Hok. cbv zeta.
  rewrite (fetch_github_activity_with_username w username) by assumption.
  destruct (commits_block
              (github_commits_request repr_other
                 (default empty_str (dict_lookup (py "full_name") repo)))
              (record_request (github_repos_request username) w))
    as (commits & Ecommits & Hlen & Hrecords & Hfailed).
  exists commits. split; [|split; [exact Hlen | split; [exact Hrecords | exact Hfailed]]].
  unfold github_try_block, try_except at 1, bind at 1, requests_get at 1.
  rewrite Hnet. cbn [failed] in Hok.
  unfold bind at 1, raise_for_status at 1. cbn [fst]. rewrite Hok.
  unfold ret at 1, bind at 1, response_json at 1. cbn [snd]. unfold ret at 1.
  unfold bind at 1. cbn [truthy]. unfold bind at 1, lift at 1. cbn [py_len].
  unfold ret at 1. cbn [Nat.ltb Nat.leb length].
  unfold bind at 1, lift at 1. cbn [py_first].
  unfold bind at 1, lift at 1. cbn [py_get].
  unfold bind at 1, lift at 1. unfold bind at 1, lift at 1.
  unfold bind at 1. rewrite Ecommits.
  unfold ret.
  now rewrite (record_request_alone (github_repos_request username)),
    record_request_with_sent.
Qed.

Lemma env_blind_github_try_block username :
  env_blind (github_try_block repr_other json_error username).
Proof. unfold github_try_block. blind. Qed.

(** Of the variables of [environ], the fetcher uses "PORTFOLIO_GITHUB"
    alone: with the same account name, and the network answering alike,
    the run is the same. *)
Lemma fetch_github_activity_same_username (w : world) (e : gmap pystr pystr) :
  e !! py "PORTFOLIO_GITHUB" = environ w !! py "PORTFOLIO_GITHUB" ->
  fst (fetch_github_activity' (set_environ e w)) = fst (fetch_github_activity' w)
  /\ sent (snd (fetch_github_activity' (set_environ e w)))
     = sent (snd (fetch_github_activity' w)).
Proof.
  intros He.
  destruct (env_missing (environ w !! py "PORTFOLIO_GITHUB")) eqn:Hmissing.
  { rewrite (fetch_github_activity_without_username w) by assumption.
    rewrite (fetch_github_activity_without_username (set_environ e w))
      by (cbn [environ set_environ]; now rewrite He).
    split; reflexivity. }
  destruct (environ w !! py "PORTFOLIO_GITHUB") as [[|c username]|] eqn:Henv;
    try discriminate.
  rewrite (fetch_github_activity_with_username w (c :: username))
    by (assumption || discriminate).
  rewrite (fetch_github_activity_with_username (set_environ e w) (c :: username))
    by (assumption || discriminate).
  rewrite env_blind_github_try_block. split; reflexivity.
Qed.

(** The access token "github_pat", which line 187 reads, is not used: in
    an environment that differs from the present one in "github_pat" only
    (the token set, changed or removed), the fetcher returns the same value
    and sends the same requests, with the same URLs, headers and
    parameters. *)
Theorem github_token_is_unused (w : world) (e : gmap pystr pystr) :
  (forall k, k <> py "github_pat" -> e !! k = environ w !! k) ->
  fst (fetch_github_activity' (set_environ e w)) = fst (fetch_github_activity' w)
  /\ sent (snd (fetch_github_activity' (set_environ e w)))
     = sent (snd (fetch_github_activity' w)).
Proof.
  intros He. apply fetch_github_activity_same_username, He. discriminate.
Qed.

End CodeActivity.

(** ** The fetchers on concrete inputs *)

(** A 403 from ugcPosts, then memberChangeLogs: two requests. *)
Lemma linkedin_requests_sent_witness :
  sent (snd (fetch_linkedin_data host_timestamp_ms_before host_json_error
               failing_linkedin_world))
  = [ ugc_posts_request (py "secret");
      change_logs_request (py "secret") 1714294800000 ]
  /\ Forall (fun r => (py "Authorization", py "Bearer secret") ∈ headers r)
            [ ugc_posts_request (py "secret");
              change_logs_request (py "secret") 1714294800000 ].
Proof.
  apply (linkedin_requests_sent host_timestamp_ms_before host_json_error
           failing_linkedin_world (py "secret")).
  - vm_compute. reflexivity.
  - discriminate.
Defined.

(** The fallback answers: its body is returned and saved. *)
Lemma linkedin_answer_is_saved_witness :
  raw_linkedin_file
    (snd (fetch_linkedin_data host_timestamp_ms_before host_json_error
            fallback_world))
  = Some fallback_payload
  /\ fst (fetch_linkedin_data host_timestamp_ms_before host_json_error
            fallback_world)
     = Ok fallback_payload.
Proof.
  apply (linkedin_answer_is_saved host_timestamp_ms_before host_json_error
           fallback_world (py "secret") 200 fallback_payload).
  - vm_compute. reflexivity.
  - discriminate.
  - vm_compute. reflexivity.
  - reflexivity.
Defined.

(** The missing token: a [ValueError] comes out. *)
Lemma fetchers_contain_request_exceptions_witness :
  fetch_linkedin_data host_timestamp_ms_before host_json_error offline_world
  = (Raise ValueError, offline_world)
  /\ ValueError <> RequestException.
Proof.
  assert (H : fetch_linkedin_data host_timestamp_ms_before host_json_error
                offline_world = (Raise ValueError, offline_world))
    by reflexivity.
  split; [exact H|].
  exact (fetchers_contain_request_exceptions host_repr_other
           host_timestamp_ms_before host_json_error
           offline_world offline_world ValueError 5 (or_introl H)).
Defined.

Lemma commit_summary_abbreviates_witness :
  commit_summary (JDict a_commit)
  = Ok (JDict [ (py "sha", JStr (py "0123456"));
                (py "message", JStr (py "Fix the parser")) ]).
Proof.
  exact (proj1 (commit_summary_abbreviates a_commit
                  [ (py "message", JStr (py "Fix the parser

Details follow.")) ]
                  (py "0123456789abcdef")
                  (py "Fix the parser

Details follow.")
                  eq_refl eq_refl eq_refl)).
Defined.

Lemma github_without_repository_witness :
  fetch_github_activity host_repr_other host_json_error no_repository_world
  = (Ok JNull,
     with_sent [github_repos_request (py "someone")] no_repository_world).
Proof.
  apply (github_without_repository host_repr_other host_json_error
           no_repository_world (py "someone")).
  - vm_compute. reflexivity.
  - discriminate.
  - right. exists 200, (JList []). repeat split; vm_compute; reflexivity.
Defined.

(** The commits of the repository cannot be fetched: the summary is
    returned with no commit. *)
Lemma github_summary_survives_commits_witness :
  exists commits,
    fetch_github_activity host_repr_other host_json_error one_repository_world
    = (Ok (JDict [ (py "repo", JStr (py "someone/site"));
                   (py "repo_name", JStr (py "site"));
                   (py "commits", JList commits);
                   (py "pushed_at", JStr (py "2024-04-30T10:00:00Z")) ]),
       with_sent [ github_repos_request (py "someone");
                   github_commits_request host_repr_other
                     (JStr (py "someone/site")) ]
                 one_repository_world)
    /\ (length commits <= 3)%nat
    /\ Forall is_commit_record commits
    /\ (failed (network one_repository_world
                  (github_commits_request host_repr_other
                     (JStr (py "someone/site")))) = true ->
        commits = []).
Proof.
  apply (github_summary_survives_commits host_repr_other host_json_error
           one_repository_world (py "someone") 200 a_repository []).
  - vm_compute. reflexivity.
  - discriminate.
  - vm_compute. reflexivity.
  - reflexivity.
Defined.

(** Setting "github_pat" changes neither the value nor the requests. *)
Lemma github_token_is_unused_witness :
  let e := <[py "github_pat" := py "token"]> (environ one_repository_world) in
  fst (fetch_github_activity host_repr_other host_json_error
         (set_environ e one_repository_world))
  = fst (fetch_github_activity host_repr_other host_json_error
           one_repository_world)
  /\ sent (snd (fetch_github_activity host_repr_other host_json_error
                  (set_environ e one_repository_world)))
     = sent (snd (fetch_github_activity host_repr_other host_json_error
                    one_repository_world)).
Proof.
  intros e.
  apply (github_token_is_unused host_repr_other host_json_error
           one_repository_world e).
  intros k Hk. subst e. apply lookup_insert_ne. congruence.
Defined.

(** A run that gets to all six endpoints. *)
Example busy_run_endpoints :
  map endpoint_of (sent (snd (host_main busy_world))) = map Some ENDPOINTS.
Proof. vm_compute. reflexivity. Qed.

(** ** The video fetcher *)

Lemma py_getitem_raises v k e :
  py_getitem v k = Raise e -> is_request_exception e = false.
Proof.
  destruct v; simpl; try (intros E; inversion E; reflexivity).
  destruct (dict_lookup k d); intros E; inversion E; reflexivity.
Qed.

Lemma uploads_of_raises item e :
  uploads_of item = Raise e -> is_request_exception e = false.
Proof.
  unfold uploads_of, rbind.
  destruct (py_getitem item _) as [details|] eqn:E1;
    [|intros E; inversion E; subst; eapply py_getitem_raises, E1].
  destruct (py_getitem details _) as [related|] eqn:E2;
    [|intros E; inversion E; subst; eapply py_getitem_raises, E2].
  apply py_getitem_raises.
Qed.

Lemma video_summary_record item v :
  video_summary item = Ok v -> is_video_record v.
Proof.
  unfold video_summary, rbind. intros E. run_cases E.
  unfold is_video_record. eauto 10.
Qed.

Section VideoFetcher.

Variable json_error : exn.

Abbreviation uploads_playlist := (fetch_youtube_uploads_playlist json_error).
Abbreviation latest_videos := (fetch_youtube_latest_videos json_error).

(** With both credentials, [fetch_youtube_uploads_playlist] is its [try]
    block. *)
Lemma uploads_playlist_with_credentials w channel_id api_key :
  environ w !! py "youtube_api_key" = Some api_key -> api_key <> [] ->
  environ w !! py "youtube_channel_ID" = Some channel_id -> channel_id <> [] ->
  uploads_playlist w = uploads_try_block json_error channel_id api_key w.
Proof.
  intros Hkey Hk Hchannel Hc.
  unfold fetch_youtube_uploads_playlist, bind at 1, getenv, bind at 1.
  rewrite Hkey, Hchannel.
  destruct api_key; [congruence|]. destruct channel_id; [congruence|]. reflexivity.
Qed.

(** What the [try] block gives on an answer that [raise_for_status]
    accepts and whose body is an object. *)
Lemma uploads_try_block_answered w channel_id api_key st d :
  network w (channels_request channel_id api_key) = Response st (Some (JDict d)) ->
  failed (Response st (Some (JDict d))) = false ->
  uploads_try_block json_error channel_id api_key w
  = (match dict_lookup (py "items") d with
     | Some (JList (item :: _)) => uploads_of item
     | Some (JList []) | None => Ok JNull
     | Some (JStr []) | Some (JDict []) => Ok JNull
     | Some (JStr (c :: _)) => uploads_of (JStr [c])
     | Some (JDict (_ :: _)) => Raise KeyError
     | Some _ => Raise TypeError
     end,
     record_request (channels_request channel_id api_key) w).
Proof.
  intros Hnet Hok. cbn [failed] in Hok.
  unfold uploads_try_block, try_except, bind at 1, requests_get. rewrite Hnet.
  unfold bind at 1, raise_for_status. cbn [fst]. rewrite Hok.
  unfold ret at 1, bind at 1, response_json. cbn [snd]. unfold ret at 1.
  unfold bind at 1, lift at 1. cbn [py_in py_getitem].
  destruct (dict_lookup (py "items") d) as [items|] eqn:Hitems.
  2: { rewrite bool_decide_eq_false_2 by (intros [? ?]; discriminate). reflexivity. }
  rewrite bool_decide_eq_true_2 by eauto.
  unfold bind at 1 2, lift at 1.
  assert (Hchain : forall item w0,
    (let (r, w') :=
       (do details <- lift (py_getitem item (py "contentDetails"));;
        do related <- lift (py_getitem details (py "relatedPlaylists"));;
        lift (py_getitem related (py "uploads"))) w0 in
     match r with
     | Ok a => (Ok a, w')
     | Raise e =>
         if is_request_exception e then ret JNull w' else (Raise e, w')
     end) = (uploads_of item, w0)).
  { intros item w0. unfold uploads_of, rbind, bind, lift.
    destruct (py_getitem item _) as [details|e] eqn:E1;
      [|now rewrite (py_getitem_raises _ _ _ E1)].
    destruct (py_getitem details _) as [related|e] eqn:E2;
      [|now rewrite (py_getitem_raises _ _ _ E2)].
    destruct (py_getitem related _) as [u|e] eqn:E3;
      [reflexivity | now rewrite (py_getitem_raises _ _ _ E3)]. }
  destruct items as [| | | |s|l|kv]; cbn [py_len lift];
    try reflexivity.
  - destruct s as [|c s]; [reflexivity|].
    unfold bind at 1, lift at 1, ret at 1. cbn [Nat.ltb Nat.leb length].
    unfold bind at 1, lift at 1. cbn [py_first]. unfold bind at 1, lift at 1.
    apply Hchain.
  - destruct l as [|item l]; [reflexivity|].
    unfold bind at 1, lift at 1, ret at 1. cbn [Nat.ltb Nat.leb length].
    unfold bind at 1, lift at 1. cbn [py_first]. unfold bind at 1, lift at 1.
    apply Hchain.
  - destruct kv as [|kv0 kv]; reflexivity.
Qed.

(** When the channel lookup fails, or is answered with an object that has
    no "items" or an empty list of them, no uploads playlist is found: the
    lookup returns [None], and the video fetcher returns the empty list
    after that one request, without asking for any playlist item. *)
Theorem youtube_without_channel (w : world) (channel_id api_key : pystr)
    (max_results : Z) :
  environ w !! py "youtube_api_key" = Some api_key -> api_key <> [] ->
  environ w !! py "youtube_channel_ID" = Some channel_id -> channel_id <> [] ->
  failed (network w (channels_request channel_id api_key)) = true
  \/ (exists st d,
        network w (channels_request channel_id api_key) = Response st (Some (JDict d))
        /\ failed (Response st (Some (JDict d))) = false
        /\ (dict_lookup (py "items") d = None
            \/ dict_lookup (py "items") d = Some (JList []))) ->
  uploads_playlist w
  = (Ok JNull, with_sent [channels_request channel_id api_key] w)
  /\ latest_videos max_results w
     = (Ok [], with_sent [channels_request channel_id api_key] w).
Proof.
  intros Hkey Hk Hchannel Hc H.
  assert (E : uploads_playlist w
              = (Ok JNull, with_sent [channels_request channel_id api_key] w)).
  { rewrite (uploads_playlist_with_credentials w channel_id api_key) by assumption.
    destruct H as [H | (st & d & Hnet & Hok & Hitems)].
    - unfold uploads_try_block, try_except, bind at 1, requests_get.
      destruct (network w (channels_request channel_id api_key)) as [|st b];
        [reflexivity|].
      unfold bind at 1, raise_for_status. cbn [fst failed] in *. now rewrite H.
    - rewrite (uploads_try_block_answered w channel_id api_key st d) by assumption.
      destruct Hitems as [-> | ->]; reflexivity. }
  split; [exact E|].
  unfold fetch_youtube_latest_videos, bind at 1. now rewrite E.
Qed.

(** When the channel lookup is answered with an object whose "items" is a
    non-empty list, the uploads playlist is read from the first item alone,
    under "contentDetails", "relatedPlaylists", "uploads".  If the item
    lacks one of the three (or is not an object), the [KeyError] or
    [TypeError] is not handled: it comes out of the lookup and of the video
    fetcher. *)
Theorem youtube_uploads_from_first_item (w : world) (channel_id api_key : pystr)
    (st : Z) (d : list (pystr * json)) (item : json) (others : list json) :
  environ w !! py "youtube_api_key" = Some api_key -> api_key <> [] ->
  environ w !! py "youtube_channel_ID" = Some channel_id -> channel_id <> [] ->
  network w (channels_request channel_id api_key) = Response st (Some (JDict d)) ->
  failed (Response st (Some (JDict d))) = false ->
  dict_lookup (py "items") d = Some (JList (item :: others)) ->
  uploads_playlist w
  = (uploads_of item, with_sent [channels_request channel_id api_key] w)
  /\ forall e max_results,
       uploads_of item = Raise e ->
       latest_videos max_results w
       = (Raise e, with_sent [channels_request channel_id api_key] w)
       /\ e <> RequestException.
Proof.
  intros Hkey Hk Hchannel Hc Hnet Hok Hitems.
  assert (E : uploads_playlist w
              = (uploads_of item, with_sent [channels_request channel_id api_key] w)).
  { rewrite (uploads_playlist_with_credentials w channel_id api_key) by assumption.
    rewrite (uploads_try_block_answered w channel_id api_key st d) by assumption.
    now rewrite Hitems. }
  split; [exact E|].
  intros e max_results He. split.
  - unfold fetch_youtube_latest_videos, bind at 1. now rewrite E, He.
  - apply uploads_of_raises in He. intros ->. discriminate.
Qed.

(** What the video fetcher does once the playlist is known. *)
Lemma latest_videos_after_lookup w w1 playlist max_results :
  uploads_playlist w = (Ok playlist, w1) ->
  truthy playlist = true ->
  latest_videos max_results w
  = try_except
      (do response <-
         requests_get (playlist_items_request playlist max_results
                         (environ w1 !! py "youtube_api_key"));;
       do _ <- raise_for_status response;;
       do data <- response_json json_error response;;
       do items <- lift (py_get data (py "items") (JList []));;
       do items <- lift (py_iter items);;
       for_each items [] append_video)
      is_request_exception
      (fun _ => ret []) w1.
Proof.
  intros E Ht. unfold fetch_youtube_latest_videos, bind at 1.
  rewrite E, Ht. reflexivity.
Qed.

(** When the playlist is known and the request for its items fails, the
    video fetcher returns the empty list. *)
Theorem youtube_items_failure (w w1 : world) (playlist : json) (max_results : Z) :
  uploads_playlist w = (Ok playlist, w1) ->
  truthy playlist = true ->
  failed (network w1 (playlist_items_request playlist max_results
                        (environ w1 !! py "youtube_api_key"))) = true ->
  latest_videos max_results w
  = (Ok [],
     with_sent [playlist_items_request playlist max_results
                  (environ w1 !! py "youtube_api_key")] w1).
Proof.
  intros E Ht H. rewrite (latest_videos_after_lookup w w1 playlist) by assumption.
  unfold try_except, bind at 1, requests_get.
  destruct (network w1 _) as [|st b]; [reflexivity|].
  unfold bind at 1, raise_for_status. cbn [fst failed] in *. now rewrite H.
Qed.

Lemma latest_videos_records w max_results videos w' :
  latest_videos max_results w = (Ok videos, w') ->
  Forall is_video_record videos.
Proof.
  unfold fetch_youtube_latest_videos, bind at 1.
  destruct (uploads_playlist w) as [[playlist|e] w1]; [|discriminate].
  destruct (truthy playlist); cbn [negb];
    [|unfold ret; intros E; inversion E; constructor].
  unfold bind at 1, getenv, try_except, bind at 1, requests_get.
  destruct (network w1 _) as [|st b];
    [cbn; unfold ret; intros E; inversion E; constructor|].
  unfold bind at 1, raise_for_status. cbn [fst].
  destruct ((400 <=? st) && (st <? 600));
    [cbn; unfold ret; intros E; inversion E; constructor|].
  unfold ret at 1, bind at 1, response_json. cbn [snd].
  destruct b as [data|].
  2: { unfold raise. destruct (is_request_exception json_error);
         unfold ret; intros E; inversion E; constructor. }
  unfold ret at 1, bind at 1, lift at 1.
  destruct (py_get data (py "items") (JList [])) as [items|e] eqn:Eg.
  2: { rewrite (py_get_raises _ _ _ _ Eg). cbn. discriminate. }
  unfold bind at 1, lift at 1.
  destruct (py_iter items) as [l|e] eqn:Ei.
  2: { destruct (is_request_exception e); unfold ret; intros E; inversion E;
         constructor. }
  rewrite for_each_append_video.
  destruct (rmap video_summary l) as [summaries|e] eqn:Emap.
  - intros E. inversion E; subst. cbn [app].
    eapply rmap_Forall; [|exact Emap]. apply video_summary_record.
  - destruct (is_request_exception e); unfold ret; intros E; inversion E;
      constructor.
Qed.

(** Every entry of a list that the video fetcher returns is a dict with
    exactly the keys "title", "video_id", "published_at" and "thumbnail". *)
Theorem youtube_videos_shape (w w' : world) (max_results : Z) (videos : list json) :
  latest_videos max_results w = (Ok videos, w') ->
  Forall is_video_record videos.
Proof. apply latest_videos_records. Qed.

End VideoFetcher.

(** ** The document and the whole run *)

(** Each profile field of the document is the environment variable when
    it is set (even to the empty string) and the placeholder of the script
    otherwise, and the document is stamped with the reading of the clock. *)
Theorem document_profile_fields (posts : list NormalizedPost)
    (github_activity : json) (youtube_videos : list json) (w : world) :
  exists doc,
    data_file (snd (generate_data_json (map post_json posts) github_activity
                      youtube_videos w))
    = Some (JDict doc)
    /\ dict_lookup (py "name") doc = Some (profile_field w "PORTFOLIO_NAME" "Your Name")
    /\ dict_lookup (py "title") doc = Some (profile_field w "PORTFOLIO_TITLE" "Your Title")
    /\ dict_lookup (py "contact") doc
       = Some (JDict [
           (py "email", profile_field w "PORTFOLIO_EMAIL" "your.email@example.com");
           (py "github", profile_field w "PORTFOLIO_GITHUB" "yourusername");
           (py "linkedin",
            profile_field w "PORTFOLIO_LINKEDIN" "https://linkedin.com/in/yourprofile") ])
    /\ dict_lookup (py "last_updated") doc
       = Some (JStr (isoformat (clock w (ticks w)))).
Proof.
  unfold generate_data_json, bind, lift, getenv_default, datetime_now,
    write_data_file, profile_field.
  rewrite latest_post_preview_total.
  eexists. split; [reflexivity|]. repeat split; reflexivity.
Qed.

(** The document replaces the previous one, of which nothing is kept: the
    file written does not depend on what the file held.  Writing it leaves
    the raw debug file, the environment and the list of requests as they
    were, and reads the clock once. *)
Theorem document_overwrites (posts : list NormalizedPost)
    (github_activity : json) (youtube_videos : list json) (w : world)
    (old : json) :
  let run w0 :=
    snd (generate_data_json (map post_json posts) github_activity
           youtube_videos w0) in
  data_file (run (set_data_file old w)) = data_file (run w)
  /\ raw_linkedin_file (run w) = raw_linkedin_file w
  /\ environ (run w) = environ w
  /\ sent (run w) = sent w
  /\ ticks (run w) = S (ticks w).
Proof.
  intros run. subst run.
  unfold generate_data_json, bind, lift, getenv_default, datetime_now,
    write_data_file.
  rewrite latest_post_preview_total.
  repeat split; reflexivity.
Qed.

Lemma try_except_reraise {A} (m : M A) w :
  try_except m any_exception (fun e => raise e) w = m w.
Proof. unfold try_except. now destruct (m w) as [[a|e] w1]. Qed.

Lemma bind_ok_inv {A B} (m : M A) (k : A -> M B) w b w' :
  bind m k w = (Ok b, w') ->
  exists a w1, m w = (Ok a, w1) /\ k a w1 = (Ok b, w').
Proof.
  unfold bind. destruct (m w) as [[a|e] w1]; [eauto | discriminate].
Qed.

Lemma generate_data_json_ok_inv posts github_activity youtube_videos w w' :
  generate_data_json posts github_activity youtube_videos w = (Ok tt, w') ->
  exists latest name title contact last_updated,
    w' = set_data_file
           (JDict [ (py "name", name);
                    (py "title", title);
                    (py "linkedin_posts", JList posts);
                    (py "latest_linkedin_post", latest);
                    (py "github_activity", github_activity);
                    (py "youtube_videos", JList youtube_videos);
                    (py "contact", contact);
                    (py "last_updated", last_updated) ])
           (tick w).
Proof.
  destruct (latest_post_preview posts) as [latest|e] eqn:El.
  - destruct (generate_data_json_writes posts latest github_activity
                youtube_videos w El) as (name & title & contact & last & E).
    rewrite E. intros E'. inversion E'. eauto 10.
  - unfold generate_data_json, bind at 1, lift. rewrite El. discriminate.
Qed.

Section Run.

Variable fromtimestamp : json -> result datetime.
Variable repr_other : json -> pystr.
Variable timestamp_ms_before : Z -> datetime -> Z.
Variable json_error : exn.

Abbreviation main' :=
  (main fromtimestamp repr_other timestamp_ms_before json_error).

(** A run that ends normally has written a document with the eight
    top-level keys, whose posts are at most five records of four keys each
    and whose videos are records of four keys each. *)
Theorem main_success_document (w w' : world) :
  main' w = (Ok tt, w') ->
  exists doc posts videos,
    data_file w' = Some (JDict doc)
    /\ dict_keys doc = OUTPUT_KEYS
    /\ dict_lookup (py "linkedin_posts") doc = Some (JList posts)
    /\ (length posts <= 5)%nat
    /\ Forall is_post_record posts
    /\ dict_lookup (py "youtube_videos") doc = Some (JList videos)
    /\ Forall is_video_record videos.
Proof.
  unfold main. rewrite try_except_reraise. intros E.
  apply bind_ok_inv in E as ([] & w1 & _ & E).
  apply bind_ok_inv in E as (data & w2 & _ & E).
  apply bind_ok_inv in E as (posts & w3 & Hposts & E).
  apply bind_ok_inv in E as (activity & w4 & _ & E).
  apply bind_ok_inv in E as (videos & w5 & Hvideos & E).
  apply generate_data_json_ok_inv in E
    as (latest & name & title & contact & last & ->).
  apply parse_linkedin_posts_records in Hposts as [Hlen Hrecords].
  apply latest_videos_records in Hvideos.
  eexists _, posts, videos.
  split; [reflexivity|]. split; [reflexivity|]. split; [reflexivity|].
  split; [exact Hlen|]. split; [exact Hrecords|]. split; [reflexivity|].
  exact Hvideos.
Qed.

(** With a token, an unreachable ugcPosts endpoint gives the empty
    result. *)
Lemma fetch_linkedin_data_unreachable w token :
  environ w !! py "linkedin_access_token" = Some token ->
  token <> [] ->
  network w (ugc_posts_request token) = ConnectionFailed ->
  fetch_linkedin_data timestamp_ms_before json_error w
  = (Ok (JDict [(py "elements", JList [])]),
     record_request (ugc_posts_request token) w).
Proof.
  intros Henv Htoken Hnet.
  rewrite (fetch_linkedin_data_with_token timestamp_ms_before json_error w token)
    by assumption.
  unfold try_except, bind at 1, requests_get. now rewrite Hnet.
Qed.

Lemma fetch_github_activity_unreachable w :
  (forall r, network w r = ConnectionFailed) ->
  exists w', fetch_github_activity repr_other json_error w = (Ok JNull, w')
             /\ network w' = network w
             /\ environ w' = environ w.
Proof.
  intros Hnet.
  destruct (env_missing (environ w !! py "PORTFOLIO_GITHUB")) eqn:Hmissing.
  - exists w. split; [|split; reflexivity].
    now apply fetch_github_activity_without_username.
  - destruct (environ w !! py "PORTFOLIO_GITHUB") as [[|c username]|] eqn:Henv;
      try discriminate.
    eexists. split; [|split].
    + rewrite (fetch_github_activity_with_username repr_other json_error w
                 (c :: username)) by (assumption || discriminate).
      unfold github_try_block, try_except, bind at 1, requests_get.
      rewrite Hnet. reflexivity.
    + reflexivity.
    + reflexivity.
Qed.

Lemma fetch_youtube_latest_videos_unreachable w max_results :
  (forall r, network w r = ConnectionFailed) ->
  exists w', fetch_youtube_latest_videos json_error max_results w = (Ok [], w').
Proof.
  intros Hnet. unfold fetch_youtube_latest_videos, bind at 1.
  unfold fetch_youtube_uploads_playlist, bind at 1, getenv, bind at 1.
  destruct (env_missing _ || env_missing _); [eexists; reflexivity|].
  cbv zeta. unfold try_except at 1, bind at 1, requests_get at 1.
  rewrite Hnet. eexists. reflexivity.
Qed.

(** With the .env file and the token in place, a run in which no endpoint
    can be reached still ends normally and writes a complete document: no
    post, no preview, no code activity and no video. *)
Theorem main_offline_still_writes (w : world) (vars : gmap pystr pystr)
    (token : pystr) :
  dotenv_file w = Some vars ->
  (environ w ∪ vars) !! py "linkedin_access_token" = Some token ->
  token <> [] ->
  (forall r, network w r = ConnectionFailed) ->
  exists doc w',
    main' w = (Ok tt, w')
    /\ data_file w' = Some (JDict doc)
    /\ dict_keys doc = OUTPUT_KEYS
    /\ dict_lookup (py "linkedin_posts") doc = Some (JList [])
    /\ dict_lookup (py "latest_linkedin_post") doc = Some JNull
    /\ dict_lookup (py "github_activity") doc = Some JNull
    /\ dict_lookup (py "youtube_videos") doc = Some (JList []).
Proof.
  intros Hfile Htoken Hne Hnet.
  unfold main. setoid_rewrite try_except_reraise.
  unfold bind at 1, load_env. rewrite Hfile.
  unfold bind at 1.
  rewrite (fetch_linkedin_data_unreachable (set_environ (environ w ∪ vars) w) token)
    by (assumption || apply Hnet).
  unfold bind at 1.
  change (parse_linkedin_posts fromtimestamp repr_other
            (JDict [(py "elements", JList [])])
            (record_request (ugc_posts_request token)
               (set_environ (environ w ∪ vars) w)))
    with (@Ok (list json) [],
          record_request (ugc_posts_request token)
            (set_environ (environ w ∪ vars) w)).
  destruct (fetch_github_activity_unreachable
              (record_request (ugc_posts_request token)
                 (set_environ (environ w ∪ vars) w)) Hnet)
    as (w3 & Egithub & Hnet3 & _).
  unfold bind at 1. rewrite Egithub.
  destruct (fetch_youtube_latest_videos_unreachable w3 5) as (w4 & Evideos).
  { intros r. rewrite Hnet3. apply Hnet. }
  unfold bind at 1. rewrite Evideos.
  destruct (generate_data_json_writes [] JNull JNull [] w4 eq_refl)
    as (name & title & contact & last & E).
  rewrite E. eexists _, _. split; [reflexivity|].
  repeat split; reflexivity.
Qed.

End Run.

(** A first run with the token, and nothing reachable. *)
Lemma main_offline_still_writes_witness :
  exists doc w',
    host_main (a_world [ (py "linkedin_access_token", py "secret") ] [])
    = (Ok tt, w')
    /\ data_file w' = Some (JDict doc)
    /\ dict_keys doc = OUTPUT_KEYS
    /\ dict_lookup (py "linkedin_posts") doc = Some (JList [])
    /\ dict_lookup (py "latest_linkedin_post") doc = Some JNull
    /\ dict_lookup (py "github_activity") doc = Some JNull
    /\ dict_lookup (py "youtube_videos") doc = Some (JList []).
Proof.
  apply (main_offline_still_writes host_fromtimestamp host_repr_other
           host_timestamp_ms_before host_json_error
           (a_world [ (py "linkedin_access_token", py "secret") ] [])
           ∅ (py "secret")).
  - reflexivity.
  - vm_compute. reflexivity.
  - discriminate.
  - intros r. reflexivity.
Defined.

(** The run of scenario 1 ends normally. *)
Lemma main_success_document_witness :
  fst (host_main scenario_1_world) = Ok tt
  /\ exists doc posts videos,
       data_file (snd (host_main scenario_1_world)) = Some (JDict doc)
       /\ dict_keys doc = OUTPUT_KEYS
       /\ dict_lookup (py "linkedin_posts") doc = Some (JList posts)
       /\ (length posts <= 5)%nat
       /\ Forall is_post_record posts
       /\ dict_lookup (py "youtube_videos") doc = Some (JList videos)
       /\ Forall is_video_record videos.
Proof.
  assert (E : fst (host_main scenario_1_world) = Ok tt)
    by (vm_compute; reflexivity).
  split; [exact E|].
  apply (main_success_document host_fromtimestamp host_repr_other
           host_timestamp_ms_before host_json_error scenario_1_world).
  change (host_main scenario_1_world
          = (Ok tt, snd (host_main scenario_1_world))).
  rewrite <- E. apply surjective_pairing.
Defined.

(** ** The video fetcher on concrete inputs *)

Lemma youtube_without_channel_witness :
  fetch_youtube_uploads_playlist host_json_error no_channel_world
  = (Ok JNull,
     with_sent [channels_request (py "UC123") (py "key")] no_channel_world)
  /\ fetch_youtube_latest_videos host_json_error 5 no_channel_world
     = (Ok [],
        with_sent [channels_request (py "UC123") (py "key")] no_channel_world).
Proof.
  apply (youtube_without_channel host_json_error no_channel_world
           (py "UC123") (py "key") 5).
  - vm_compute. reflexivity.
  - discriminate.
  - vm_compute. reflexivity.
  - discriminate.
  - right. exists 200, [ (py "items", JList []) ].
    split; [vm_compute; reflexivity|]. split; [reflexivity|].
    right. reflexivity.
Defined.

(** The first item has no "contentDetails": a [KeyError] comes out of the
    video fetcher. *)
Lemma youtube_uploads_from_first_item_witness :
  uploads_of bare_channel_item = Raise KeyError
  /\ fetch_youtube_latest_videos host_json_error 5 bare_channel_world
     = (Raise KeyError,
        with_sent [channels_request (py "UC123") (py "key")] bare_channel_world).
Proof.
  assert (He : uploads_of bare_channel_item = Raise KeyError) by reflexivity.
  split; [exact He|].
  apply (proj2 (youtube_uploads_from_first_item host_json_error
                  bare_channel_world (py "UC123") (py "key") 200
                  [ (py "items", JList [bare_channel_item]) ]
                  bare_channel_item []
                  ltac:(vm_compute; reflexivity) ltac:(discriminate)
                  ltac:(vm_compute; reflexivity) ltac:(discriminate)
                  ltac:(vm_compute; reflexivity) eq_refl eq_refl)
               KeyError 5 He).
Defined.

Lemma youtube_items_failure_witness :
  fetch_youtube_latest_videos host_json_error 5 items_unreachable_world
  = (Ok [],
     with_sent
       [playlist_items_request (JStr (py "UU123")) 5 (Some (py "key"))]
       (record_request (channels_request (py "UC123") (py "key"))
          items_unreachable_world)).
Proof.
  apply (youtube_items_failure host_json_error items_unreachable_world
           (record_request (channels_request (py "UC123") (py "key"))
              items_unreachable_world)
           (JStr (py "UU123")) 5).
  - reflexivity.
  - reflexivity.
  - vm_compute. reflexivity.
Defined.

Lemma youtube_videos_shape_witness :
  fst (fetch_youtube_latest_videos host_json_error 5 six_items_world)
  = Ok six_videos
  /\ Forall is_video_record six_videos.
Proof.
  assert (E : fst (fetch_youtube_latest_videos host_json_error 5 six_items_world)
              = Ok six_videos) by (vm_compute; reflexivity).
  split; [exact E|].
  apply (youtube_videos_shape host_json_error six_items_world
           (snd (fetch_youtube_latest_videos host_json_error 5 six_items_world))
           5 six_videos).
  rewrite <- E. apply surjective_pairing.
Defined.
